(** * Request-diff-checker: the mitmproxy addon [forward_code.py]

  A shallow embedding of the addon's two hooks ([request], [response]),
  of its connector worker ([_handle_connector_service]) and of its header
  codec ([_serialize_headers_preserve]), together with the part of the
  mitmproxy [Headers] multidict and of Python's [dict] the hooks rely on.

  Representation choices:
  - a Python [str] is a Rocq [string] holding its UTF-8 bytes, a [bytes]
    value is a [string] of raw bytes;
  - a Python [dict] with string keys is an insertion-ordered association
    list with unique keys ([PyDict]); the process-wide [stored_headers]
    map, which is never iterated, is a [gmap];
  - mitmproxy's [Headers] is the tuple of its [fields], in order;
  - mutation of the flow and of the module state is explicit state
    passing in a small state-and-exception monad;
  - the answers of the forward target, the library calls that raise and
    the content codecs of mitmproxy are given by an environment. *)

From Stdlib Require Import String Ascii List ZArith Bool Lia DecimalString.
From stdpp Require Import gmap strings.
Import ListNotations.

(* ===================================================================== *)
(** ** Python strings *)
(* ===================================================================== *)

Module PyStr.

(** [bytes.lower()] on one byte: only ASCII letters change. *)
Definition lower_byte (c : ascii) : ascii :=
  let n := N_of_ascii c in
  if ((65 <=? n) && (n <=? 90))%N then ascii_of_N (n + 32) else c.

(** [key.lower()] *)
Fixpoint lower (s : string) : string :=
  match s with
  | EmptyString => EmptyString
  | String c s' => String (lower_byte c) (lower s')
  end.

(** [sep.join(values)] *)
Fixpoint join (sep : string) (values : list string) : string :=
  match values with
  | [] => ""
  | [v] => v
  | v :: values' => v +:+ sep +:+ join sep values'
  end.

End PyStr.

(* ===================================================================== *)
(** ** Python dictionaries with string keys, in insertion order *)
(* ===================================================================== *)

Module PyDict.

Definition t (V : Type) : Type := list (string * V).

Definition empty {V : Type} : t V := [].

(** [d.get(k)] *)
Fixpoint get {V : Type} (k : string) (d : t V) : option V :=
  match d with
  | [] => None
  | (k', v) :: d' => if String.eqb k' k then Some v else get k d'
  end.

(** [k in d] *)
Definition contains {V : Type} (k : string) (d : t V) : bool :=
  match get k d with Some _ => true | None => false end.

(** [d[k] = v]: an existing key keeps its position, a new key goes last. *)
Fixpoint set {V : Type} (k : string) (v : V) (d : t V) : t V :=
  match d with
  | [] => [(k, v)]
  | (k', v') :: d' =>
      if String.eqb k' k then (k', v) :: d' else (k', v') :: set k v d'
  end.

(** [d.items()] *)
Definition items {V : Type} (d : t V) : list (string * V) := d.

(** [d.keys()] *)
Definition keys {V : Type} (d : t V) : list string := map fst d.

(** [bool(d)] *)
Definition truthy {V : Type} (d : t V) : bool :=
  match d with [] => false | _ :: _ => true end.

End PyDict.

(* ===================================================================== *)
(** ** mitmproxy's [Headers] multidict *)
(* ===================================================================== *)

(** The operations below follow [mitmproxy.coretypes.multidict._MultiDict]
  as specialised by [mitmproxy.http.Headers]: names compare after
  [lower()], reading a name folds all its values with [", "], assigning a
  name rewrites its first field and drops the others, deleting a name
  drops all its fields. *)
Module Headers.

Definition t : Type := list (string * string).

Definition _kconv (key : string) : string := PyStr.lower key.

Definition same_name (a b : string) : bool :=
  String.eqb (_kconv a) (_kconv b).

Definition _reduce_values (values : list string) : string :=
  PyStr.join ", " values.

(** [h.get_all(key)] *)
Definition get_all (key : string) (h : t) : list string :=
  map snd (List.filter (fun f => same_name (fst f) key) h).

(** [key in h] *)
Definition contains (key : string) (h : t) : bool :=
  match get_all key h with [] => false | _ :: _ => true end.

(** [h[key]]; [None] stands for [KeyError]. *)
Definition getitem (key : string) (h : t) : option string :=
  match get_all key h with
  | [] => None
  | values => Some (_reduce_values values)
  end.

(** [h.set_all(key, values)] *)
Fixpoint set_all (key : string) (values : list string) (h : t) : t :=
  match h with
  | [] => map (fun v => (key, v)) values
  | (k, v) :: h' =>
      if same_name k key then
        match values with
        | [] => set_all key [] h'
        | x :: values' => (k, x) :: set_all key values' h'
        end
      else (k, v) :: set_all key values h'
  end.

(** [h[key] = value] *)
Definition setitem (key value : string) (h : t) : t :=
  set_all key [value] h.

(** The fields whose name is not [key]. *)
Definition without (key : string) (h : t) : t :=
  List.filter (fun f => negb (same_name (fst f) key)) h.

(** [del h[key]]; [None] stands for [KeyError]. *)
Definition delitem (key : string) (h : t) : option t :=
  if contains key h then Some (without key h) else None.

(** [iter(h)]: every name once, as spelled at its first field. *)
Fixpoint iter_from (seen : list string) (h : t) : list string :=
  match h with
  | [] => []
  | (k, _) :: h' =>
      if existsb (String.eqb (_kconv k)) seen
      then iter_from seen h'
      else k :: iter_from (_kconv k :: seen) h'
  end.

Definition iter (h : t) : list string := iter_from [] h.

(** The spelling of the first field named [name], if any. *)
Fixpoint first_spelling (name : string) (h : t) : option string :=
  match h with
  | [] => None
  | (k, _) :: h' =>
      if same_name k name then Some k else first_spelling name h'
  end.

(** [h.items(multi=True)] *)
Definition items_multi (h : t) : list (string * string) := h.

(** [dict(h)]: one entry per name of [iter(h)], holding [h[name]]. *)
Definition to_dict (h : t) : PyDict.t string :=
  fold_left
    (fun d k =>
       match getitem k h with
       | Some v => PyDict.set k v d
       | None => d
       end)
    (iter h) PyDict.empty.

(** [h.copy()] *)
Definition copy (h : t) : t := h.

End Headers.

(* ===================================================================== *)
(** ** The header codec *)
(* ===================================================================== *)

Definition _serialize_headers_preserve (headers_obj : Headers.t)
  : list (string * string) * PyDict.t string :=
  fold_left
    (fun acc kv =>
       let '(list_of_pairs, dict_single) := acc in
       let '(k, v) := kv in
       (list_of_pairs ++ [(k, v)], PyDict.set k v dict_single))
    (Headers.items_multi headers_obj)
    ([], PyDict.empty).

(* ===================================================================== *)
(** ** [bytes.decode("utf-8", errors="replace")] *)
(* ===================================================================== *)

(** Text is kept as UTF-8 bytes, so decoding copies every well-formed
    sequence and puts U+FFFD (bytes EF BF BD) in place of every maximal
    ill-formed run, as CPython's decoder does. *)
Module Utf8.

Definition byte (n : N) : ascii := ascii_of_N n.

Definition in_range (lo hi : N) (c : ascii) : bool :=
  ((lo <=? N_of_ascii c) && (N_of_ascii c <=? hi))%N.

Definition is_continuation (c : ascii) : bool := in_range 128 191 c.

(** Length announced by a lead byte; [0] for a byte that cannot start a
    sequence (80..C1 and F5..FF). *)
Definition width (c : ascii) : nat :=
  if in_range 0 127 c then 1
  else if in_range 194 223 c then 2
  else if in_range 224 239 c then 3
  else if in_range 240 244 c then 4
  else 0.

(** The second byte allowed after lead byte [c1]: the ranges exclude
    overlong forms, surrogates and code points above U+10FFFF. *)
Definition second_ok (c1 c2 : ascii) : bool :=
  if in_range 224 224 c1 then in_range 160 191 c2
  else if in_range 237 237 c1 then in_range 128 159 c2
  else if in_range 240 240 c1 then in_range 144 191 c2
  else if in_range 244 244 c1 then in_range 128 143 c2
  else is_continuation c2.

Definition replacement : string :=
  String (byte 239) (String (byte 191) (String (byte 189) EmptyString)).

Fixpoint decode_replace (b : string) : string :=
  match b with
  | EmptyString => EmptyString
  | String c1 t1 =>
      match width c1 with
      | 1 => String c1 (decode_replace t1)
      | 2 =>
          match t1 with
          | EmptyString => replacement
          | String c2 t2 =>
              if is_continuation c2
              then String c1 (String c2 (decode_replace t2))
              else replacement +:+ decode_replace t1
          end
      | 3 =>
          match t1 with
          | EmptyString => replacement
          | String c2 t2 =>
              if second_ok c1 c2 then
                match t2 with
                | EmptyString => replacement
                | String c3 t3 =>
                    if is_continuation c3
                    then String c1 (String c2 (String c3 (decode_replace t3)))
                    else replacement +:+ decode_replace t2
                end
              else replacement +:+ decode_replace t1
          end
      | 4 =>
          match t1 with
          | EmptyString => replacement
          | String c2 t2 =>
              if second_ok c1 c2 then
                match t2 with
                | EmptyString => replacement
                | String c3 t3 =>
                    if is_continuation c3 then
                      match t3 with
                      | EmptyString => replacement
                      | String c4 t4 =>
                          if is_continuation c4
                          then String c1 (String c2 (String c3
                                 (String c4 (decode_replace t4))))
                          else replacement +:+ decode_replace t3
                      end
                    else replacement +:+ decode_replace t2
                end
              else replacement +:+ decode_replace t1
          end
      | _ => replacement +:+ decode_replace t1
      end
  end.

(** Well-formed UTF-8 (table 3-7 of the Unicode standard). *)
Fixpoint well_formed (b : string) : bool :=
  match b with
  | EmptyString => true
  | String c1 t1 =>
      match width c1 with
      | 1 => well_formed t1
      | 2 =>
          match t1 with
          | String c2 t2 => is_continuation c2 && well_formed t2
          | _ => false
          end
      | 3 =>
          match t1 with
          | String c2 (String c3 t3) =>
              second_ok c1 c2 && is_continuation c3 && well_formed t3
          | _ => false
          end
      | 4 =>
          match t1 with
          | String c2 (String c3 (String c4 t4)) =>
              second_ok c1 c2 && is_continuation c3 && is_continuation c4
              && well_formed t4
          | _ => false
          end
      | _ => false
      end
  end.

End Utf8.

(* ===================================================================== *)
(** ** Exceptions, messages and flows *)
(* ===================================================================== *)

(** An exception is represented by its description [str(e)]. *)
Definition exn : Type := string.

Inductive outcome (A : Type) : Type :=
| Returned (a : A)
| Raised (e : exn).

Arguments Returned {A} a.
Arguments Raised {A} e.

Definition FORWARD_URL : string := "http://localhost:9000/receive".
Definition TIMEOUT : Z := 10.

(** [content] is what [get_content()] evaluates to on the message: the
    body ([None] when the message has none) or the exception strict
    content decoding raises. *)
Module Request.
Record t : Type := make
  { method : string;
    url : string;
    headers : Headers.t;
    content : outcome (option string) }.

Definition with_headers (h : Headers.t) (r : t) : t :=
  {| method := method r; url := url r; headers := h; content := content r |}.

(** [r.copy()] *)
Definition copy (r : t) : t :=
  {| method := method r; url := url r;
     headers := Headers.copy (headers r); content := content r |}.
End Request.

(** What [mitmproxy.net.encoding.encode] gives for a body: the encoded
    bytes, a [ValueError] (the encoding is unknown or fails), or another
    exception, which it lets through ([TypeError]). *)
Inductive encoded : Type :=
| Encoded (raw : string)
| EncodeValueError
| EncodeRaises (e : exn).

(** The codecs of [mitmproxy.net.encoding] for the encodings other than
    [identity] and [none] ([gzip], [deflate], [br], [zstd], Python's own
    codecs): they take the lower-cased encoding name and the bytes. *)
Module Codec.
Record t : Type := mk
  { encode : string -> string -> encoded;
    decode : string -> string -> outcome string }.
End Codec.

Definition is_identity_encoding (encoding : string) : bool :=
  String.eqb encoding "identity" || String.eqb encoding "none".

(** [encoding.encode(decoded, encoding)] *)
Definition encoding_encode (c : Codec.t) (decoded encoding : string)
  : encoded :=
  let encoding := PyStr.lower encoding in
  if is_identity_encoding encoding then Encoded decoded
  else Codec.encode c encoding decoded.

(** [encoding.decode(encoded, encoding)] *)
Definition encoding_decode (c : Codec.t) (raw encoding : string)
  : outcome string :=
  let encoding := PyStr.lower encoding in
  if is_identity_encoding encoding then Returned raw
  else Codec.decode c encoding raw.

(** [str(n)] *)
Definition str_of_nat (n : nat) : string :=
  DecimalString.NilEmpty.string_of_uint (Nat.to_uint n).

Module Response.
Record t : Type := mk
  { status_code : Z;
    headers : Headers.t;
    content : outcome (option string) }.

Definition with_headers (h : Headers.t) (r : t) : t :=
  {| status_code := status_code r; headers := h; content := content r |}.

(** [r.copy()] *)
Definition copy (r : t) : t :=
  {| status_code := status_code r;
     headers := Headers.copy (headers r); content := content r |}.

(** [get_content()] of a message with headers [h] and raw content [raw]. *)
Definition get_content (c : Codec.t) (h : Headers.t) (raw : string)
  : outcome (option string) :=
  match Headers.getitem "content-encoding" h with
  | None => Returned (Some raw)
  | Some ce =>
      if String.eqb ce "" then Returned (Some raw)
      else
        match encoding_decode c raw ce with
        | Returned decoded => Returned (Some decoded)
        | Raised e => Raised e
        end
  end.

(** The content setter [r.content = value] on headers [h]: the body is
    encoded for the [content-encoding] of [h]; an encoding that cannot be
    applied is deleted from the headers and the body kept as it is;
    [content-length] is set to the length of the raw content unless a
    [transfer-encoding] is present. The result is the new headers and the
    raw content. *)
Definition set_content (c : Codec.t) (h : Headers.t) (value : string)
  : outcome (Headers.t * string) :=
  let ce :=
    match Headers.getitem "content-encoding" h with
    | Some ce => ce
    | None => ""
    end in
  let stored :=
    match
      encoding_encode c value (if String.eqb ce "" then "identity" else ce)
    with
    | Encoded raw => Returned (h, raw)
    | EncodeValueError =>
        match Headers.delitem "content-encoding" h with
        | Some h' => Returned (h', value)
        | None => Raised "'content-encoding'"
        end
    | EncodeRaises e => Raised e
    end in
  match stored with
  | Raised e => Raised e
  | Returned (h', raw) =>
      Returned
        (if Headers.contains "transfer-encoding" h' then h'
         else Headers.setitem "content-length"
                (str_of_nat (String.length raw)) h',
         raw)
  end.

(** [http.Response.make(status_code, content, headers)] for [bytes]
    content and a [dict] of headers: the headers are the items of the
    dict, then the content is assigned. *)
Definition make (c : Codec.t) (status_code : Z) (content : string)
    (headers : PyDict.t string) : outcome t :=
  match set_content c (PyDict.items headers) content with
  | Raised e => Raised e
  | Returned (h, raw) =>
      Returned
        {| status_code := status_code;
           headers := h;
           content := get_content c h raw |}
  end.
End Response.

Module HTTPFlow.
Record t : Type := mk
  { id : string;
    request : Request.t;
    response : option Response.t;
    intercepted : bool }.

Definition with_request (r : Request.t) (f : t) : t :=
  {| id := id f; request := r; response := response f;
     intercepted := intercepted f |}.

Definition with_response (r : option Response.t) (f : t) : t :=
  {| id := id f; request := request f; response := r;
     intercepted := intercepted f |}.

Definition with_intercepted (b : bool) (f : t) : t :=
  {| id := id f; request := request f; response := response f;
     intercepted := b |}.
End HTTPFlow.

(** What [requests] hands back: [headers] is the outcome of
    [dict(svc_resp.headers)]. *)
Module SvcResponse.
Record t : Type := mk
  { status_code : Z;
    content : string;
    headers : outcome (PyDict.t string) }.
End SvcResponse.

(** JSON-shaped Python values, for the report payload. *)
#[local] Set Warnings "-register-all".
Inductive json : Type :=
| JStr (s : string)
| JInt (n : Z)
| JList (xs : list json)
| JDict (fields : list (string * json)).

(** The [data=] argument of an outbound call. *)
Inductive body : Type :=
| RawBody (data : option string)
| JsonBody (payload : json).

Module OutboundCall.
Record t : Type := mk
  { method : string;
    url : string;
    headers : PyDict.t string;
    data : body;
    timeout : Z }.
End OutboundCall.

(** A started [threading.Thread], by target and arguments; the flow
    argument of the connector worker is given by its id. *)
Inductive Thread : Type :=
| Thread_handle_connector_service (fid : string) (headers : PyDict.t string)
| Thread_send_enriched_async (payload : json) (fid : string).

(** The log lines of the addon, by call site. *)
Inductive message : Type :=
| MsgSent (fid : string)
| MsgSendFailed (fid : string) (e : exn)
| MsgDelivered (fid : string) (status : Z)
| MsgConnectorError (fid : string) (e : exn)
| MsgIntercepting (fid : string)
| MsgStored (fid : string) (removed : PyDict.t string)
| MsgScheduled (fid : string)
| MsgBuildFailed (fid : string) (e : exn).

(** Everything the addon does to the outside, in program order. *)
Inductive effect : Type :=
| LogInfo (m : message)
| LogError (m : message)
| Intercept (fid : string)
| Resume (fid : string)
| ThreadStart (t : Thread)
| HttpCall (c : OutboundCall.t).

(** Library calls that sit in the regions whose exception handling the
    addon defines: the worker's [try] body and the report construction of
    the response hook. *)
Inductive call_site : Type :=
| SiteMakeResponse
| SiteCopyRequest
| SiteCopyResponse
| SiteReinstateRequest
| SiteReinstateResponse
| SiteSerializeRequest
| SiteSerializeResponse
| SiteThreadStart.

(** The environment: the answer of the forward target to each outbound
    call, the library calls that raise, and the content codecs. *)
Record Env : Type := mkEnv
  { requests_request : OutboundCall.t -> outcome SvcResponse.t;
    fault : call_site -> option exn;
    codec : Codec.t }.

(** The flow a hook is called with, the module-level [stored_headers] and
    the effects so far. *)
Record World : Type := mkWorld
  { flow : HTTPFlow.t;
    stored_headers : gmap string (PyDict.t string);
    trace : list effect }.

(* ===================================================================== *)
(** ** State and exceptions *)
(* ===================================================================== *)

Definition M (A : Type) : Type := World -> outcome A * World.

Definition ret {A : Type} (a : A) : M A := fun w => (Returned a, w).

Definition bind {A B : Type} (m : M A) (k : A -> M B) : M B :=
  fun w =>
    match m w with
    | (Returned a, w') => k a w'
    | (Raised e, w') => (Raised e, w')
    end.

Definition raise {A : Type} (e : exn) : M A := fun w => (Raised e, w).

(** [try: body  except Exception as e: handler e] *)
Definition try_except {A : Type} (body : M A) (handler : exn -> M A) : M A :=
  fun w =>
    match body w with
    | (Returned a, w') => (Returned a, w')
    | (Raised e, w') => handler e w'
    end.

(** [try: body  finally: final] *)
Definition try_finally {A : Type} (body : M A) (final : M unit) : M A :=
  fun w =>
    match body w with
    | (r, w') =>
        match final w' with
        | (Returned _, w'') => (r, w'')
        | (Raised e, w'') => (Raised e, w'')
        end
    end.

Notation "'do' x <- m ; k" := (bind m (fun x => k))
  (at level 10, x name, m at level 100, k at level 200,
   format "'[v' 'do'  x  <-  m ; '/' k ']'").
Notation "'do' ' p <- m ; k" := (bind m (fun x => let 'p := x in k))
  (at level 10, p pattern, m at level 100, k at level 200,
   format "'[v' 'do'  ' p  <-  m ; '/' k ']'").
Notation "m ;; k" := (bind m (fun _ => k))
  (at level 100, k at level 200, right associativity, only parsing).

Definition lift {A : Type} (o : outcome A) : M A :=
  match o with Returned a => ret a | Raised e => raise e end.

Definition get_flow : M HTTPFlow.t := fun w => (Returned (flow w), w).

Definition put_flow (f : HTTPFlow.t) : M unit :=
  fun w =>
    (Returned tt,
     {| flow := f; stored_headers := stored_headers w; trace := trace w |}).

Definition get_stored_headers : M (gmap string (PyDict.t string)) :=
  fun w => (Returned (stored_headers w), w).

Definition put_stored_headers (s : gmap string (PyDict.t string)) : M unit :=
  fun w =>
    (Returned tt, {| flow := flow w; stored_headers := s; trace := trace w |}).

Definition emit (e : effect) : M unit :=
  fun w =>
    (Returned tt,
     {| flow := flow w; stored_headers := stored_headers w;
        trace := trace w ++ [e] |}).

(** A library call that may raise, as the environment says. *)
Definition fault_point (env : Env) (site : call_site) : M unit :=
  match fault env site with
  | Some e => raise e
  | None => ret tt
  end.

(* ===================================================================== *)
(** ** Library calls of the addon *)
(* ===================================================================== *)

(** [ctx.log.info(...)] and [ctx.log.error(...)] *)
Definition log_info (m : message) : M unit := emit (LogInfo m).
Definition log_error (m : message) : M unit := emit (LogError m).

(** [requests.request(...)]: the call leaves the proxy and the forward
    target answers, or the call raises. *)
Definition http_call (env : Env) (c : OutboundCall.t) : M SvcResponse.t :=
  emit (HttpCall c) ;; lift (requests_request env c).

(** [threading.Thread(target=..., args=...).start()] *)
Definition thread_start (t : Thread) : M unit := emit (ThreadStart t).

(** [flow.intercept()] *)
Definition flow_intercept : M unit :=
  do f <- get_flow;
  if HTTPFlow.intercepted f then ret tt
  else put_flow (HTTPFlow.with_intercepted true f) ;;
       emit (Intercept (HTTPFlow.id f)).

(** [flow.resume()] *)
Definition flow_resume : M unit :=
  do f <- get_flow;
  if HTTPFlow.intercepted f
  then put_flow (HTTPFlow.with_intercepted false f) ;;
       emit (Resume (HTTPFlow.id f))
  else ret tt.

(** [flow.response = r] *)
Definition set_response (r : Response.t) : M unit :=
  do f <- get_flow; put_flow (HTTPFlow.with_response (Some r) f).

Definition attribute_error (attr : string) : exn :=
  "'NoneType' object has no attribute '" +:+ attr +:+ "'".

Definition key_error (key : string) : exn := "'" +:+ key +:+ "'".

(** [flow.response], for an attribute access on it. *)
Definition the_response (attr : string) : M Response.t :=
  do f <- get_flow;
  match HTTPFlow.response f with
  | Some r => ret r
  | None => raise (attribute_error attr)
  end.

(** [flow.response.headers[key] = value] *)
Definition set_response_header (key value : string) : M unit :=
  do r <- the_response "headers";
  do f <- get_flow;
  put_flow
    (HTTPFlow.with_response
       (Some (Response.with_headers
                (Headers.setitem key value (Response.headers r)) r)) f).

(** [m.get_content().decode("utf-8", errors="replace")] *)
Definition decoded_content (c : outcome (option string)) : M string :=
  do data <- lift c;
  match data with
  | Some b => ret (Utf8.decode_replace b)
  | None => raise (attribute_error "decode")
  end.

(** [o == s] for the result [o] of a [dict.get]. *)
Definition py_eq (o : option string) (s : string) : bool :=
  match o with
  | Some v => String.eqb v s
  | None => false
  end.

(* ===================================================================== *)
(** ** The exchange store *)
(* ===================================================================== *)

(** [stored_headers[fid] = removed] (line 99). *)
Definition put (fid : string) (removed : PyDict.t string)
    (s : gmap string (PyDict.t string)) : gmap string (PyDict.t string) :=
  <[fid := removed]> s.

(** [if fid not in stored_headers: return] followed by
    [stored_headers.pop(fid)] (lines 112-115). *)
Definition take_if_present (fid : string) (s : gmap string (PyDict.t string))
  : option (PyDict.t string) * gmap string (PyDict.t string) :=
  match s !! fid with
  | None => (None, s)
  | Some removed => (Some removed, delete fid s)
  end.

(* ===================================================================== *)
(** ** Fire-and-forget sender for normal enrichment *)
(* ===================================================================== *)

Definition _send_enriched_async (env : Env) (payload : json) (fid : string)
  : M unit :=
  try_except
    (http_call env
       {| OutboundCall.method := "POST";
          OutboundCall.url := FORWARD_URL;
          OutboundCall.headers := [("Content-Type", "application/json")];
          OutboundCall.data := JsonBody payload;
          OutboundCall.timeout := TIMEOUT |} ;;
     log_info (MsgSent fid))
    (fun e => log_error (MsgSendFailed fid e)).

(* ===================================================================== *)
(** ** Connector-service worker *)
(* ===================================================================== *)

Definition error_body (e : exn) : string :=
  "Error contacting connector service: " +:+ e.

Definition _handle_connector_service (env : Env) (headers : PyDict.t string)
  : M unit :=
  try_finally
    (try_except
       (do f <- get_flow;
        do data <- lift (Request.content (HTTPFlow.request f));
        do svc_resp <-
          http_call env
            {| OutboundCall.method := Request.method (HTTPFlow.request f);
               OutboundCall.url := FORWARD_URL;
               OutboundCall.headers := headers;
               OutboundCall.data := RawBody data;
               OutboundCall.timeout := TIMEOUT |};
        do svc_headers <-
          try_except
            (lift (SvcResponse.headers svc_resp))
            (fun _ => ret [("Content-Type", "application/octet-stream")]);
        fault_point env SiteMakeResponse ;;
        do made <-
          lift
            (Response.make (codec env) (SvcResponse.status_code svc_resp)
               (SvcResponse.content svc_resp) svc_headers);
        set_response made ;;
        log_info
          (MsgDelivered (HTTPFlow.id f) (SvcResponse.status_code svc_resp)))
       (fun e =>
          do made <-
            lift
              (Response.make (codec env) 502 (error_body e)
                 [("Content-Type", "text/plain")]);
          set_response made ;;
          do f <- get_flow;
          log_error (MsgConnectorError (HTTPFlow.id f) e)))
    flow_resume.

(* ===================================================================== *)
(** ** Request hook *)
(* ===================================================================== *)

Definition request : M unit :=
  do f <- get_flow;
  let headers := Headers.to_dict (Request.headers (HTTPFlow.request f)) in
  if py_eq (PyDict.get "x-source" headers) "connector-service" then
    log_info (MsgIntercepting (HTTPFlow.id f)) ;;
    flow_intercept ;;
    thread_start (Thread_handle_connector_service (HTTPFlow.id f) headers)
  else
    do removed <-
      (let h := Request.headers (HTTPFlow.request f) in
       if Headers.contains "x-request-id" h then
         match Headers.getitem "x-request-id" h,
               Headers.delitem "x-request-id" h with
         | Some v, Some h' =>
             put_flow
               (HTTPFlow.with_request
                  (Request.with_headers h' (HTTPFlow.request f)) f) ;;
             ret (PyDict.set "x-request-id" v PyDict.empty)
         | _, _ => raise (key_error "x-request-id")
         end
       else ret PyDict.empty);
    if PyDict.truthy removed then
      do s <- get_stored_headers;
      put_stored_headers (put (HTTPFlow.id f) removed s) ;;
      log_info (MsgStored (HTTPFlow.id f) removed)
    else ret tt.

(* ===================================================================== *)
(** ** Response hook *)
(* ===================================================================== *)

(** [for k, v in removed.items(): req_copy.headers[k] = v;
    resp_copy.headers[k] = v] *)
Fixpoint reinstate (env : Env) (items : list (string * string))
    (req_copy : Request.t) (resp_copy : Response.t)
  : M (Request.t * Response.t) :=
  match items with
  | [] => ret (req_copy, resp_copy)
  | (k, v) :: items' =>
      fault_point env SiteReinstateRequest ;;
      let req_copy :=
        Request.with_headers
          (Headers.setitem k v (Request.headers req_copy)) req_copy in
      fault_point env SiteReinstateResponse ;;
      let resp_copy :=
        Response.with_headers
          (Headers.setitem k v (Response.headers resp_copy)) resp_copy in
      reinstate env items' req_copy resp_copy
  end.

Definition headers_list_json (pairs : list (string * string)) : json :=
  JList (map (fun kv => JList [JStr (fst kv); JStr (snd kv)]) pairs).

Definition headers_dict_json (d : PyDict.t string) : json :=
  JDict (map (fun kv => (fst kv, JStr (snd kv))) (PyDict.items d)).

(** The dict literal of lines 136-151. *)
Definition build_payload (fid : string)
    (req_copy : Request.t) (resp_copy : Response.t)
    (req_headers_list : list (string * string))
    (req_headers_dict : PyDict.t string)
    (resp_headers_list : list (string * string))
    (resp_headers_dict : PyDict.t string) : M json :=
  do req_body <- decoded_content (Request.content req_copy);
  do resp_body <- decoded_content (Response.content resp_copy);
  ret (JDict
         [("flow_id", JStr fid);
          ("request",
           JDict [("method", JStr (Request.method req_copy));
                  ("url", JStr (Request.url req_copy));
                  ("headers_list", headers_list_json req_headers_list);
                  ("headers", headers_dict_json req_headers_dict);
                  ("body", JStr req_body)]);
          ("response",
           JDict [("status_code", JInt (Response.status_code resp_copy));
                  ("headers_list", headers_list_json resp_headers_list);
                  ("headers", headers_dict_json resp_headers_dict);
                  ("body", JStr resp_body)])]).

(** Lines 117-120: restore the correlation header into the response that
    goes to the client and mark it. *)
Definition restore_to_client (removed : PyDict.t string) : M unit :=
  (match PyDict.get "x-request-id" removed with
   | Some v => set_response_header "x-request-id" v
   | None => ret tt
   end) ;;
  set_response_header "x-state" "response".

(** Lines 122-155: copy, reinstate, serialize, build the payload and
    schedule the send. Only the last part is inside the [try]. *)
Definition report (env : Env) (fid : string) (removed : PyDict.t string)
  : M unit :=
  fault_point env SiteCopyRequest ;;
  do f <- get_flow;
  let req_copy := Request.copy (HTTPFlow.request f) in
  fault_point env SiteCopyResponse ;;
  do r <- the_response "copy";
  let resp_copy := Response.copy r in
  do copies <- reinstate env (PyDict.items removed) req_copy resp_copy;
  let '(req_copy, resp_copy) := copies in
  fault_point env SiteSerializeRequest ;;
  let '(req_headers_list, req_headers_dict) :=
    _serialize_headers_preserve (Request.headers req_copy) in
  fault_point env SiteSerializeResponse ;;
  let '(resp_headers_list, resp_headers_dict) :=
    _serialize_headers_preserve (Response.headers resp_copy) in
  try_except
    (do payload <-
       build_payload fid req_copy resp_copy
         req_headers_list req_headers_dict
         resp_headers_list resp_headers_dict;
     fault_point env SiteThreadStart ;;
     thread_start (Thread_send_enriched_async payload fid) ;;
     log_info (MsgScheduled fid))
    (fun e => log_error (MsgBuildFailed fid e)).

Definition response (env : Env) : M unit :=
  do f <- get_flow;
  let fid := HTTPFlow.id f in
  do s <- get_stored_headers;
  match take_if_present fid s with
  | (None, _) => ret tt
  | (Some removed, s') =>
      put_stored_headers s' ;;
      restore_to_client removed ;;
      report env fid removed
  end.

(* ===================================================================== *)
(** ** Exchanges sharing the module state *)
(* ===================================================================== *)

(** What the proxy runs against the shared [stored_headers] while one
    exchange is in flight: hooks of flows, and started threads. *)
Inductive activity : Type :=
| RequestHook (g : HTTPFlow.t)
| ResponseHook (g : HTTPFlow.t)
| ConnectorWorker (g : HTTPFlow.t) (headers : PyDict.t string)
| EnrichedSender (payload : json) (fid : string).

(** The activity is not a hook of the flow [fid]. *)
Definition foreign (fid : string) (a : activity) : Prop :=
  match a with
  | RequestHook g | ResponseHook g => HTTPFlow.id g <> fid
  | ConnectorWorker _ _ | EnrichedSender _ _ => True
  end.

(** Run [m] on flow [g] against the shared state of [w]; the flow of [w]
    is another object and stays as it is. *)
Definition on_flow (g : HTTPFlow.t) (m : M unit) (w : World) : World :=
  let w' :=
    snd (m {| flow := g; stored_headers := stored_headers w;
              trace := trace w |}) in
  {| flow := flow w; stored_headers := stored_headers w';
     trace := trace w' |}.

Definition perform (env : Env) (a : activity) (w : World) : World :=
  match a with
  | RequestHook g => on_flow g request w
  | ResponseHook g => on_flow g (response env) w
  | ConnectorWorker g headers =>
      on_flow g (_handle_connector_service env headers) w
  | EnrichedSender payload fid =>
      on_flow (flow w) (_send_enriched_async env payload fid) w
  end.

Definition run (env : Env) (acts : list activity) (w : World) : World :=
  fold_left (fun w a => perform env a w) acts w.

(** The origin server answers: the proxy attaches the response to the
    flow before it calls the response hook. *)
Definition origin_responds (r : Response.t) (w : World) : World :=
  {| flow := HTTPFlow.with_response (Some r) (flow w);
     stored_headers := stored_headers w; trace := trace w |}.

(* ===================================================================== *)
(** ** Notions used to state the properties *)
(* ===================================================================== *)

(** The request is classified as a connector-service request (line 86). *)
Definition is_connector (f : HTTPFlow.t) : bool :=
  py_eq
    (PyDict.get "x-source"
       (Headers.to_dict (Request.headers (HTTPFlow.request f))))
    "connector-service".

(** The headers the worker builds the response with (lines 53-56). *)
Definition service_headers (svc : SvcResponse.t) : PyDict.t string :=
  match SvcResponse.headers svc with
  | Returned d => d
  | Raised _ => [("Content-Type", "application/octet-stream")]
  end.

(** The exception the worker's [try] body ends with, if any: the body
    cannot be read, the outbound call raises, or building the response
    raises. *)
Definition connector_failure (env : Env) (headers : PyDict.t string)
    (f : HTTPFlow.t) : option exn :=
  match Request.content (HTTPFlow.request f) with
  | Raised e => Some e
  | Returned data =>
      match
        requests_request env
          {| OutboundCall.method := Request.method (HTTPFlow.request f);
             OutboundCall.url := FORWARD_URL;
             OutboundCall.headers := headers;
             OutboundCall.data := RawBody data;
             OutboundCall.timeout := TIMEOUT |}
      with
      | Raised e => Some e
      | Returned svc =>
          match fault env SiteMakeResponse with
          | Some e => Some e
          | None =>
              match
                Response.make (codec env) (SvcResponse.status_code svc)
                  (SvcResponse.content svc) (service_headers svc)
              with
              | Raised e => Some e
              | Returned _ => None
              end
          end
      end
  end.

(** The response of the worker's [except] branch (lines 68-72):
    [http.Response.make] writes the content length next to the content
    type. *)
Definition error_response (e : exn) : Response.t :=
  {| Response.status_code := 502;
     Response.headers :=
       [("Content-Type", "text/plain");
        ("content-length", str_of_nat (String.length (error_body e)))];
     Response.content := Returned (Some (error_body e)) |}.

(** Effects of the connector delegation path. *)
Definition delegation_effect (e : effect) : bool :=
  match e with
  | Intercept _ | Resume _
  | ThreadStart (Thread_handle_connector_service _ _) => true
  | _ => false
  end.

Definition delegates (tr : list effect) : bool := existsb delegation_effect tr.

Definition starts_sender (tr : list effect) : bool :=
  existsb
    (fun e =>
       match e with
       | ThreadStart (Thread_send_enriched_async _ _) => true
       | _ => false
       end) tr.

Definition logs_build_failure (tr : list effect) : bool :=
  existsb
    (fun e =>
       match e with
       | LogError (MsgBuildFailed _ _) => true
       | _ => false
       end) tr.

(** The response of the flow after lines 117-120. *)
Definition restored (removed : PyDict.t string) (r : Response.t) : Response.t :=
  Response.with_headers
    (Headers.setitem "x-state" "response"
       (match PyDict.get "x-request-id" removed with
        | Some v => Headers.setitem "x-request-id" v (Response.headers r)
        | None => Response.headers r
        end)) r.

(** The first exception among the library calls at [sites], in order. *)
Fixpoint first_fault (env : Env) (sites : list call_site) : option exn :=
  match sites with
  | [] => None
  | site :: sites' =>
      match fault env site with
      | Some e => Some e
      | None => first_fault env sites'
      end
  end.

(** The library calls of steps 3-5 of the report, in program order: the
    two copies, the reinstatement loop (entered when [removed] has an
    item), the two serializations. *)
Definition construction_sites (removed : PyDict.t string) : list call_site :=
  [SiteCopyRequest; SiteCopyResponse]
  ++ (if PyDict.truthy removed
      then [SiteReinstateRequest; SiteReinstateResponse] else [])
  ++ [SiteSerializeRequest; SiteSerializeResponse].

(** The exception steps 3-5 end with, if any. *)
Definition construction_failure (env : Env) (removed : PyDict.t string)
  : option exn :=
  first_fault env (construction_sites removed).

(** [m.get_content().decode("utf-8", errors="replace")] as a value. *)
Definition text_of (c : outcome (option string)) : outcome string :=
  match c with
  | Raised e => Raised e
  | Returned None => Raised (attribute_error "decode")
  | Returned (Some b) => Returned (Utf8.decode_replace b)
  end.

(** The exception the [try] body of the response hook ends with, if any:
    a body cannot be read, or the thread cannot be started. *)
Definition assembly_failure (env : Env) (rq : Request.t) (rs : Response.t)
  : option exn :=
  match text_of (Request.content rq) with
  | Raised e => Some e
  | Returned _ =>
      match text_of (Response.content rs) with
      | Raised e => Some e
      | Returned _ => fault env SiteThreadStart
      end
  end.

(** Every header of [removed] reads back from [h]. *)
Definition reinstated (removed : PyDict.t string) (h : Headers.t) : Prop :=
  forall k v, PyDict.get k removed = Some v -> Headers.getitem k h = Some v.

(** The headers after the loop of lines 127-129. *)
Definition reinstate_all (removed : PyDict.t string) (h : Headers.t)
  : Headers.t :=
  fold_left (fun h kv => Headers.setitem (fst kv) (snd kv) h)
    (PyDict.items removed) h.

(** The store entry the request hook writes for a correlation value. *)
Definition correlation_entry (v : string) : PyDict.t string :=
  [("x-request-id", v)].

Module Spec.

(** The snapshot of the classification step as the specification words
    it: a last-write-wins mapping of the request headers. *)
Definition last_write_wins (h : Headers.t) : PyDict.t string :=
  fold_left (fun d kv => PyDict.set (fst kv) (snd kv) d)
    (Headers.items_multi h) PyDict.empty.

(** The value of the last field named [name], if any. *)
Fixpoint last_occurrence (name : string) (fields : list (string * string))
  : option string :=
  match fields with
  | [] => None
  | (k, v) :: fields' =>
      match last_occurrence name fields' with
      | Some w => Some w
      | None => if String.eqb k name then Some v else None
      end
  end.

End Spec.

(* ===================================================================== *)
(** ** Properties of computations, used in the proofs *)
(* ===================================================================== *)

(** [m] leaves [stored_headers] as it is. *)
Definition keeps_store {A : Type} (m : M A) : Prop :=
  forall w, stored_headers (snd (m w)) = stored_headers w.

(** [m] leaves the flow as it is. *)
Definition keeps_flow {A : Type} (m : M A) : Prop :=
  forall w, flow (snd (m w)) = flow w.

(** [m] only appends effects, none of which satisfies [bad]. *)
Definition appends_no {A : Type} (bad : effect -> bool) (m : M A) : Prop :=
  forall w,
    exists delta,
      trace (snd (m w)) = trace w ++ delta /\ existsb bad delta = false.

(** Every stored entry is the singleton written by the request hook. *)
Definition holds_correlation_only (s : gmap string (PyDict.t string)) : Prop :=
  forall fid removed,
    s !! fid = Some removed -> exists v, removed = correlation_entry v.

(** The loop bodies of the codec and of [dict(h)]. *)
Definition codec_step (acc : list (string * string) * PyDict.t string)
    (kv : string * string) : list (string * string) * PyDict.t string :=
  let '(list_of_pairs, dict_single) := acc in
  let '(k, v) := kv in
  (list_of_pairs ++ [(k, v)], PyDict.set k v dict_single).

Definition snapshot_step (h : Headers.t) (d : PyDict.t string) (k : string)
  : PyDict.t string :=
  match Headers.getitem k h with
  | Some v => PyDict.set k v d
  | None => d
  end.

(** The name [key] is not among the names already yielded by [iter]. *)
Definition unseen (seen : list string) (key : string) : bool :=
  negb (existsb (String.eqb (Headers._kconv key)) seen).

(* ===================================================================== *)
(** ** Sample exchanges *)
(* ===================================================================== *)

Module Sample.

Definition get_request (h : Headers.t) : Request.t :=
  {| Request.method := "GET"; Request.url := "http://origin.example/items";
     Request.headers := h; Request.content := Returned (Some "ping") |}.

Definition new_flow (fid : string) (h : Headers.t) : HTTPFlow.t :=
  {| HTTPFlow.id := fid; HTTPFlow.request := get_request h;
     HTTPFlow.response := None; HTTPFlow.intercepted := false |}.

Definition fresh (f : HTTPFlow.t) : World :=
  {| flow := f; stored_headers := ∅; trace := [] |}.

Definition ok_response (h : Headers.t) : Response.t :=
  {| Response.status_code := 200; Response.headers := h;
     Response.content := Returned (Some "ok") |}.

(** A codec that knows no encoding but [identity] and [none]. *)
Definition identity_only : Codec.t :=
  {| Codec.encode := fun _ _ => EncodeValueError;
     Codec.decode := fun _ _ => Raised "Invalid Content-Encoding" |}.

(** The forward target times out; no library call raises. *)
Definition timeout_env : Env :=
  {| requests_request := fun _ => Raised "Read timed out.";
     fault := fun _ => None;
     codec := identity_only |}.

(** The forward target answers, but copying the request raises. *)
Definition copy_fails_env : Env :=
  {| requests_request :=
       fun _ =>
         Returned
           {| SvcResponse.status_code := 200; SvcResponse.content := "ok";
              SvcResponse.headers := Returned [] |};
     fault :=
       fun site =>
         match site with
         | SiteCopyRequest => Some "copy failed"
         | _ => None
         end;
     codec := identity_only |}.

(** A connector request with a repeated [accept] header. *)
Definition connector_two_accepts : HTTPFlow.t :=
  new_flow "f1"
    [("x-source", "connector-service"); ("accept", "text/html");
     ("accept", "application/json")].

(** A request that repeats the discriminator header and carries a
    correlation header. *)
Definition tagged_twice : HTTPFlow.t :=
  new_flow "f2"
    [("x-source", "connector-service"); ("x-source", "connector-service");
     ("x-request-id", "abc123")].

(** A response event for flow [f3], whose correlation header is stored. *)
Definition awaiting_enrichment : World :=
  {| flow :=
       {| HTTPFlow.id := "f3";
          HTTPFlow.request := get_request [("accept", "text/html")];
          HTTPFlow.response := Some (ok_response [("server", "origin")]);
          HTTPFlow.intercepted := false |};
     stored_headers := {[ "f3" := [("x-request-id", "abc123")] ]};
     trace := [] |}.

(** The same event, for a response whose body cannot be read. *)
Definition unreadable_response : World :=
  {| flow :=
       {| HTTPFlow.id := "f3";
          HTTPFlow.request := get_request [("accept", "text/html")];
          HTTPFlow.response :=
            Some
              {| Response.status_code := 200;
                 Response.headers := [("content-encoding", "gzip")];
                 Response.content := Raised "Invalid content encoding" |};
          HTTPFlow.intercepted := false |};
     stored_headers := {[ "f3" := [("x-request-id", "abc123")] ]};
     trace := [] |}.

(** A normal request with a correlation header, and one without. *)
Definition with_correlation : HTTPFlow.t :=
  new_flow "f4" [("accept", "text/html"); ("X-Request-Id", "abc123")].

Definition without_correlation : HTTPFlow.t :=
  new_flow "f5" [("accept", "text/html")].

(** Hooks of two other exchanges. *)
Definition other_traffic : list activity :=
  [RequestHook (new_flow "f6" [("x-request-id", "zzz")]);
   RequestHook connector_two_accepts;
   ResponseHook
     {| HTTPFlow.id := "f6";
        HTTPFlow.request := get_request [];
        HTTPFlow.response := Some (ok_response []);
        HTTPFlow.intercepted := false |}].

End Sample.

(* ===================================================================== *)
(** ** Notions used for the further properties *)
(* ===================================================================== *)

(** [j[key]] for a JSON object. *)
Definition json_get (key : string) (j : json) : option json :=
  match j with
  | JDict fields => PyDict.get key fields
  | _ => None
  end.

(** [j[k1][k2]...] *)
Fixpoint json_path (keys : list string) (j : json) : option json :=
  match keys with
  | [] => Some j
  | key :: keys' =>
      match json_get key j with
      | Some j' => json_path keys' j'
      | None => None
      end
  end.

Definition is_http_call (e : effect) : bool :=
  match e with
  | HttpCall _ => true
  | _ => false
  end.

(** The outbound calls of a trace, in order. *)
Fixpoint http_calls (tr : list effect) : list OutboundCall.t :=
  match tr with
  | [] => []
  | HttpCall c :: tr' => c :: http_calls tr'
  | _ :: tr' => http_calls tr'
  end.

(** The [requests.post] call of the sender (lines 31-36). *)
Definition report_call (payload : json) : OutboundCall.t :=
  {| OutboundCall.method := "POST";
     OutboundCall.url := FORWARD_URL;
     OutboundCall.headers := [("Content-Type", "application/json")];
     OutboundCall.data := JsonBody payload;
     OutboundCall.timeout := TIMEOUT |}.

(** The [requests.request] call of the connector worker (lines 46-52). *)
Definition connector_call (f : HTTPFlow.t) (headers : PyDict.t string)
    (data : option string) : OutboundCall.t :=
  {| OutboundCall.method := Request.method (HTTPFlow.request f);
     OutboundCall.url := FORWARD_URL;
     OutboundCall.headers := headers;
     OutboundCall.data := RawBody data;
     OutboundCall.timeout := TIMEOUT |}.

(** The number of request hooks, and of response hooks, among activities. *)
Fixpoint request_hooks (acts : list activity) : nat :=
  match acts with
  | [] => 0
  | RequestHook _ :: acts' => S (request_hooks acts')
  | _ :: acts' => request_hooks acts'
  end.

Fixpoint response_hooks (acts : list activity) : nat :=
  match acts with
  | [] => 0
  | ResponseHook _ :: acts' => S (response_hooks acts')
  | _ :: acts' => response_hooks acts'
  end.

Module Scenario.

(** The forward target answers [200 ok] with readable headers. *)
Definition answering_env : Env :=
  {| requests_request :=
       fun _ =>
         Returned
           {| SvcResponse.status_code := 200; SvcResponse.content := "ok";
              SvcResponse.headers :=
                Returned [("Content-Type", "text/plain")] |};
     fault := fun _ => None;
     codec := Sample.identity_only |}.

(** The forward target answers, but its headers cannot be read. *)
Definition unreadable_headers_env : Env :=
  {| requests_request :=
       fun _ =>
         Returned
           {| SvcResponse.status_code := 204; SvcResponse.content := "";
              SvcResponse.headers := Raised "bad header" |};
     fault := fun _ => None;
     codec := Sample.identity_only |}.

(** The forward target answers [200 ok] and declares a content length
    that does not match the body. *)
Definition stale_length_env : Env :=
  {| requests_request :=
       fun _ =>
         Returned
           {| SvcResponse.status_code := 200; SvcResponse.content := "ok";
              SvcResponse.headers :=
                Returned
                  [("Content-Type", "text/plain");
                   ("Content-Length", "999")] |};
     fault := fun _ => None;
     codec := Sample.identity_only |}.

(** A normal request with the correlation header twice, in two
    spellings, between other fields. *)
Definition two_correlation_fields : HTTPFlow.t :=
  Sample.new_flow "f7"
    [("accept", "text/html"); ("X-Request-ID", "abc"); ("host", "origin");
     ("x-request-id", "def")].

(** An origin response that carries its own correlation header. *)
Definition origin_with_own_id : Response.t :=
  {| Response.status_code := 404;
     Response.headers :=
       [("server", "origin"); ("X-Request-Id", "from-origin");
        ("x-request-id", "again")];
     Response.content := Returned (Some "missing") |}.

End Scenario.

(* ===================================================================== *)
(** * Proofs *)
(* ===================================================================== *)

(** ** Dictionaries *)

Section PyDictFacts.
Context {V : Type}.
Implicit Types (d : PyDict.t V) (k : string) (v : V).

Lemma get_set_eq k v d : PyDict.get k (PyDict.set k v d) = Some v.
Proof.
  induction d as [|[k' v'] d IH]; simpl.
  - now rewrite String.eqb_refl.
  - destruct (String.eqb k' k) eqn:E; simpl; rewrite E; auto.
Qed.

Lemma get_set_ne k k' v d :
  k <> k' -> PyDict.get k' (PyDict.set k v d) = PyDict.get k' d.
Proof.
  intros Hne. induction d as [|[k0 v0] d IH]; simpl.
  - destruct (String.eqb_spec k k'); [contradiction | reflexivity].
  - destruct (String.eqb_spec k0 k) as [->|Hk0]; simpl.
    + destruct (String.eqb_spec k k'); [contradiction | reflexivity].
    + now rewrite IH.
Qed.

Lemma keys_set k v d :
  PyDict.keys (PyDict.set k v d) =
  if PyDict.contains k d then PyDict.keys d else PyDict.keys d ++ [k].
Proof.
  unfold PyDict.contains, PyDict.keys.
  induction d as [|[k0 v0] d IH]; simpl; [reflexivity|].
  destruct (String.eqb_spec k0 k) as [->|Hk0]; simpl; [reflexivity|].
  rewrite IH. now destruct (PyDict.get k d).
Qed.

Lemma contains_keys k d : PyDict.contains k d = true <-> In k (PyDict.keys d).
Proof.
  unfold PyDict.contains, PyDict.keys.
  induction d as [|[k0 v0] d IH]; simpl.
  - split; [discriminate | tauto].
  - destruct (String.eqb_spec k0 k) as [->|Hk0].
    + split; auto.
    + rewrite IH. split; [auto | intros [?|?]; [contradiction | assumption]].
Qed.

Lemma NoDup_keys_set k v d :
  NoDup (PyDict.keys d) -> NoDup (PyDict.keys (PyDict.set k v d)).
Proof.
  intros Hnd. rewrite keys_set.
  destruct (PyDict.contains k d) eqn:E; [assumption|].
  apply NoDup_app. split_and!; [assumption | | apply NoDup_singleton].
  intros x Hx Hin. apply list_elem_of_In in Hx.
  apply list_elem_of_singleton in Hin. subst x.
  apply contains_keys in Hx. congruence.
Qed.

End PyDictFacts.

(** ** The header codec *)

Section Codec.

Lemma codec_fold fields pairs d :
  fold_left codec_step fields (pairs, d) =
  (pairs ++ fields,
   fold_left (fun d kv => PyDict.set (fst kv) (snd kv) d) fields d).
Proof.
  revert pairs d. induction fields as [|[k v] fields IH]; intros pairs d; simpl.
  - now rewrite app_nil_r.
  - rewrite IH. now rewrite <- app_assoc.
Qed.

(** The codec returns the fields and the last-write-wins mapping. *)
Lemma serialize_unfold h :
  _serialize_headers_preserve h =
  (Headers.items_multi h, Spec.last_write_wins h).
Proof. exact (codec_fold (Headers.items_multi h) [] PyDict.empty). Qed.

Lemma get_fold_set name fields (d : PyDict.t string) :
  PyDict.get name
    (fold_left (fun d kv => PyDict.set (fst kv) (snd kv) d) fields d) =
  match Spec.last_occurrence name fields with
  | Some v => Some v
  | None => PyDict.get name d
  end.
Proof.
  revert d. induction fields as [|[k v] fields IH]; intros d; simpl;
    [reflexivity|].
  rewrite IH. destruct (Spec.last_occurrence name fields); [reflexivity|].
  destruct (String.eqb_spec k name) as [->|Hne].
  - apply get_set_eq.
  - now apply get_set_ne.
Qed.

Lemma NoDup_keys_fold_set fields (d : PyDict.t string) :
  NoDup (PyDict.keys d) ->
  NoDup (PyDict.keys
           (fold_left (fun d kv => PyDict.set (fst kv) (snd kv) d) fields d)).
Proof.
  revert d. induction fields as [|[k v] fields IH]; intros d Hnd; simpl;
    [exact Hnd|].
  apply IH. now apply NoDup_keys_set.
Qed.

Lemma last_occurrence_None name fields :
  Spec.last_occurrence name fields = None <-> ~ In name (map fst fields).
Proof.
  induction fields as [|[k v] fields IH]; simpl; [tauto|].
  destruct (Spec.last_occurrence name fields).
  - split; [discriminate|]. intros H. exfalso. apply H. right.
    destruct (in_dec string_dec name (map fst fields)) as [Hin|Hin];
      [assumption|].
    apply IH in Hin. discriminate.
  - destruct (String.eqb_spec k name).
    + split; [discriminate | intros H; exfalso; auto].
    + split; [|reflexivity]. intros _ [?|?]; [contradiction|]. now apply IH.
Qed.

Lemma last_occurrence_split name v before after :
  ~ In name (map fst after) ->
  Spec.last_occurrence name (before ++ (name, v) :: after) = Some v.
Proof.
  intros Hafter. induction before as [|[k0 v0] before IH]; simpl.
  - apply last_occurrence_None in Hafter. rewrite Hafter.
    now rewrite String.eqb_refl.
  - now rewrite IH.
Qed.

End Codec.

(** C4. For every header collection the codec returns the fields
    themselves, in order and with duplicates, and a mapping in which every
    name that occurs holds the value of its last occurrence and no other
    name is bound; the mapping has no repeated key; a collection without
    fields gives an empty list and an empty mapping. The codec is a
    function of its argument alone: it has no error case and no effect. *)
Theorem serialize_keeps_every_pair_and_the_last_value (h : Headers.t) :
  let '(pairs, lastWinMap) := _serialize_headers_preserve h in
  pairs = Headers.items_multi h
  /\ (forall name,
        PyDict.get name lastWinMap =
        Spec.last_occurrence name (Headers.items_multi h))
  /\ (forall before name v after,
        Headers.items_multi h = before ++ (name, v) :: after ->
        ~ In name (map fst after) ->
        PyDict.get name lastWinMap = Some v)
  /\ (forall name,
        PyDict.contains name lastWinMap = true <->
        In name (map fst (Headers.items_multi h)))
  /\ NoDup (PyDict.keys lastWinMap)
  /\ _serialize_headers_preserve [] = ([], PyDict.empty).
Proof.
  rewrite serialize_unfold. unfold Spec.last_write_wins.
  assert (Hget : forall name,
             PyDict.get name
               (fold_left (fun d kv => PyDict.set (fst kv) (snd kv) d)
                  (Headers.items_multi h) PyDict.empty) =
             Spec.last_occurrence name (Headers.items_multi h)).
  { intros name. rewrite get_fold_set.
    now destruct (Spec.last_occurrence name (Headers.items_multi h)). }
  split_and!.
  - reflexivity.
  - exact Hget.
  - intros before name v after Hsplit Hafter.
    rewrite Hget, Hsplit. now apply last_occurrence_split.
  - intros name. unfold PyDict.contains. rewrite Hget.
    destruct (Spec.last_occurrence name (Headers.items_multi h)) eqn:E.
    + split; [intros _|reflexivity].
      destruct (in_dec string_dec name (map fst (Headers.items_multi h)))
        as [Hin|Hin]; [assumption|].
      apply last_occurrence_None in Hin. congruence.
    + split; [discriminate|]. intros Hin.
      apply last_occurrence_None in E. contradiction.
  - apply NoDup_keys_fold_set. apply NoDup_nil_2.
  - reflexivity.
Qed.

Lemma serialize_keeps_every_pair_and_the_last_value_witness :
  PyDict.get "set-cookie"
    (snd (_serialize_headers_preserve
            [("set-cookie", "a=1"); ("server", "origin");
             ("set-cookie", "b=2")]))
  = Some "b=2".
Proof.
  pose proof (serialize_keeps_every_pair_and_the_last_value
                [("set-cookie", "a=1"); ("server", "origin");
                 ("set-cookie", "b=2")]) as H.
  destruct (_serialize_headers_preserve
              [("set-cookie", "a=1"); ("server", "origin");
               ("set-cookie", "b=2")]) as [pairs lastWinMap].
  destruct H as (_ & _ & H & _).
  apply (H [("set-cookie", "a=1"); ("server", "origin")]
           "set-cookie" "b=2" []).
  - reflexivity.
  - simpl. tauto.
Defined.

(** ** The [Headers] multidict *)

Section HeadersFacts.
Implicit Types (h : Headers.t) (k key value : string).

Lemma same_name_refl k : Headers.same_name k k = true.
Proof. apply String.eqb_refl. Qed.

Lemma same_name_trans_false k key key' :
  Headers.same_name k key = true ->
  Headers.same_name key key' = false ->
  Headers.same_name k key' = false.
Proof.
  unfold Headers.same_name. intros H1 H2.
  apply String.eqb_eq in H1. now rewrite H1.
Qed.

Lemma get_all_set_all_nil key h :
  Headers.get_all key (Headers.set_all key [] h) = [].
Proof.
  unfold Headers.get_all.
  induction h as [|[k v] h IH]; simpl; [reflexivity|].
  destruct (Headers.same_name k key) eqn:E; simpl; [assumption|].
  now rewrite E.
Qed.

Lemma get_all_setitem_eq key value h :
  Headers.get_all key (Headers.setitem key value h) = [value].
Proof.
  unfold Headers.setitem.
  induction h as [|[k v] h IH]; simpl.
  - unfold Headers.get_all. simpl. now rewrite same_name_refl.
  - destruct (Headers.same_name k key) eqn:E.
    + unfold Headers.get_all. simpl. rewrite E. simpl.
      f_equal. apply get_all_set_all_nil.
    + unfold Headers.get_all in *. simpl. now rewrite E.
Qed.

Lemma get_all_set_all_other key key' values h :
  Headers.same_name key key' = false ->
  Headers.get_all key' (Headers.set_all key values h) = Headers.get_all key' h.
Proof.
  intros Hne. unfold Headers.get_all.
  revert values. induction h as [|[k v] h IH]; intros values; simpl.
  - induction values as [|x values IHv]; simpl; [reflexivity|].
    now rewrite Hne.
  - destruct (Headers.same_name k key) eqn:E.
    + rewrite (same_name_trans_false _ _ _ E Hne).
      destruct values; simpl; [apply IH|].
      rewrite (same_name_trans_false _ _ _ E Hne). apply IH.
    + simpl. destruct (Headers.same_name k key'); simpl; now rewrite IH.
Qed.

Lemma getitem_setitem_eq key value h :
  Headers.getitem key (Headers.setitem key value h) = Some value.
Proof. unfold Headers.getitem. now rewrite get_all_setitem_eq. Qed.

Lemma getitem_setitem_other key key' value h :
  Headers.same_name key key' = false ->
  Headers.getitem key' (Headers.setitem key value h) = Headers.getitem key' h.
Proof.
  intros Hne. unfold Headers.getitem, Headers.setitem.
  now rewrite get_all_set_all_other.
Qed.

Lemma getitem_contains key h value :
  Headers.getitem key h = Some value -> Headers.contains key h = true.
Proof.
  unfold Headers.getitem, Headers.contains.
  now destruct (Headers.get_all key h).
Qed.

Lemma contains_getitem key h :
  Headers.contains key h = true ->
  Headers.getitem key h = Some (Headers._reduce_values (Headers.get_all key h)).
Proof.
  unfold Headers.getitem, Headers.contains.
  now destruct (Headers.get_all key h).
Qed.

Lemma get_all_without_eq key h :
  Headers.get_all key (Headers.without key h) = [].
Proof.
  unfold Headers.get_all, Headers.without.
  induction h as [|[k v] h IH]; simpl; [reflexivity|].
  destruct (Headers.same_name k key) eqn:E; simpl; [assumption|].
  now rewrite E.
Qed.

Lemma get_all_without_other key key' h :
  Headers.same_name key key' = false ->
  Headers.get_all key' (Headers.without key h) = Headers.get_all key' h.
Proof.
  intros Hne. unfold Headers.get_all, Headers.without.
  induction h as [|[k v] h IH]; simpl; [reflexivity|].
  destruct (Headers.same_name k key) eqn:E; simpl.
  - now rewrite (same_name_trans_false _ _ _ E Hne).
  - destruct (Headers.same_name k key'); simpl; now rewrite IH.
Qed.

Lemma delitem_present key h :
  Headers.contains key h = true ->
  Headers.delitem key h = Some (Headers.without key h).
Proof. unfold Headers.delitem. now intros ->. Qed.

Lemma contains_without key h :
  Headers.contains key (Headers.without key h) = false.
Proof. unfold Headers.contains. now rewrite get_all_without_eq. Qed.

End HeadersFacts.

(** ** The snapshot [dict(h)] *)

Section Snapshot.

Lemma unseen_same_name seen k key :
  Headers.same_name k key = true -> unseen seen k = unseen seen key.
Proof.
  unfold Headers.same_name, unseen. intros H. apply String.eqb_eq in H.
  now rewrite H.
Qed.

Lemma iter_from_In seen h key :
  In key (Headers.iter_from seen h) <->
  unseen seen key = true /\ Headers.first_spelling key h = Some key.
Proof.
  revert seen. induction h as [|[k v] h IH]; intros seen; simpl.
  - split; [tauto | intros [_ H]; discriminate].
  - destruct (existsb (String.eqb (Headers._kconv k)) seen) eqn:Hseen.
    + rewrite IH. destruct (Headers.same_name k key) eqn:Hsame; [|tauto].
      rewrite <- (unseen_same_name seen k key Hsame). unfold unseen.
      rewrite Hseen. simpl. split; intros [H _]; discriminate.
    + simpl. rewrite IH.
      destruct (Headers.same_name k key) eqn:Hsame.
      * rewrite <- (unseen_same_name seen k key Hsame).
        unfold unseen at 2. rewrite Hseen. simpl.
        split.
        -- intros [->|[Hun _]]; [tauto|].
           unfold unseen in Hun. simpl in Hun.
           unfold Headers.same_name in Hsame.
           rewrite String.eqb_sym in Hsame. rewrite Hsame in Hun.
           discriminate.
        -- intros [_ [= ->]]. now left.
      * split.
        -- intros [->|[Hun Hfirst]];
             [now rewrite same_name_refl in Hsame|].
           split; [|exact Hfirst]. unfold unseen in *. simpl in Hun.
           now apply negb_true_iff, orb_false_elim in Hun as [_ ->].
        -- intros [Hun Hfirst]. right. split; [|exact Hfirst].
           unfold unseen in *. simpl.
           unfold Headers.same_name in Hsame. rewrite String.eqb_sym in Hsame.
           now rewrite Hsame.
Qed.

Lemma first_spelling_contains key k h :
  Headers.first_spelling key h = Some k -> Headers.contains key h = true.
Proof.
  unfold Headers.contains, Headers.get_all.
  induction h as [|[k0 v0] h IH]; simpl; [discriminate|].
  destruct (Headers.same_name k0 key); simpl; [reflexivity | exact IH].
Qed.

Lemma get_fold_snapshot_step h key ks d :
  Forall (fun k => Headers.contains k h = true) ks ->
  PyDict.get key (fold_left (snapshot_step h) ks d) =
  if existsb (String.eqb key) ks then Headers.getitem key h
  else PyDict.get key d.
Proof.
  intros Hall. revert d.
  induction Hall as [|k ks Hk Hall IH]; intros d; simpl; [reflexivity|].
  rewrite IH. destruct (existsb (String.eqb key) ks);
    [now rewrite orb_true_r|].
  rewrite orb_false_r. unfold snapshot_step.
  rewrite (contains_getitem _ _ Hk).
  destruct (String.eqb_spec key k) as [->|Hne].
  - rewrite get_set_eq. now rewrite (contains_getitem _ _ Hk).
  - apply get_set_ne. congruence.
Qed.

Lemma to_dict_get key h :
  PyDict.get key (Headers.to_dict h) =
  match Headers.first_spelling key h with
  | Some k => if String.eqb k key then Headers.getitem key h else None
  | None => None
  end.
Proof.
  unfold Headers.to_dict.
  change (fun d k => _) with (snapshot_step h).
  rewrite get_fold_snapshot_step.
  - destruct (existsb (String.eqb key) (Headers.iter h)) eqn:Hin.
    + apply existsb_exists in Hin as [k [Hin Heq]].
      apply String.eqb_eq in Heq. subst k.
      apply iter_from_In in Hin as [_ ->]. now rewrite String.eqb_refl.
    + destruct (Headers.first_spelling key h) as [k|] eqn:Hfirst;
        [|reflexivity].
      destruct (String.eqb_spec k key) as [->|Hne]; [|reflexivity].
      assert (Hin' : In key (Headers.iter h)) by (now apply iter_from_In).
      assert (existsb (String.eqb key) (Headers.iter h) = true).
      { apply existsb_exists. exists key. split; [exact Hin'|].
        apply String.eqb_refl. }
      congruence.
  - apply Forall_forall. intros k Hin. apply list_elem_of_In in Hin.
    apply iter_from_In in Hin as [_ Hfirst].
    now apply first_spelling_contains in Hfirst.
Qed.

(** The classification in terms of the fields of the request: the first
    field named [x-source], in any case, is spelled [x-source], and the
    values of all fields of that name, joined by [", "], are the sentinel. *)
Lemma is_connector_spec f :
  is_connector f = true <->
  Headers.first_spelling "x-source" (Request.headers (HTTPFlow.request f))
    = Some "x-source"
  /\ Headers.get_all "x-source" (Request.headers (HTTPFlow.request f)) <> []
  /\ PyStr.join ", "
       (Headers.get_all "x-source" (Request.headers (HTTPFlow.request f)))
     = "connector-service".
Proof.
  unfold is_connector. rewrite to_dict_get.
  set (h := Request.headers (HTTPFlow.request f)).
  destruct (Headers.first_spelling "x-source" h) as [k|] eqn:Hfirst.
  - destruct (String.eqb_spec k "x-source") as [->|Hne].
    + unfold Headers.getitem, Headers._reduce_values.
      destruct (Headers.get_all "x-source" h) as [|v vs] eqn:Hall; simpl.
      * split; [discriminate | intros (_ & H & _); congruence].
      * rewrite String.eqb_eq. split.
        -- intros H. now split_and!.
        -- now intros (_ & _ & H).
    + simpl. split; [discriminate | intros ([= H] & _); congruence].
  - simpl. split; [discriminate | intros (H & _); discriminate].
Qed.

End Snapshot.

(** ** Decoding with replacement *)

Section Utf8Facts.
Import Utf8.

Lemma well_formed_replacement s :
  well_formed (replacement +:+ s) = well_formed s.
Proof. reflexivity. Qed.

Lemma decode_replace_well_formed_upto n :
  forall b, String.length b <= n -> well_formed (decode_replace b) = true.
Proof.
  induction n as [|n IH]; intros b Hlen.
  - destruct b; [reflexivity | simpl in Hlen; lia].
  - destruct b as [|c1 t1]; [reflexivity|]. simpl in Hlen.
    assert (H1 : well_formed (decode_replace t1) = true) by (apply IH; lia).
    cbn [decode_replace].
    destruct (width c1) as [|[|[|[|[|?]]]]] eqn:Hw;
      try (rewrite well_formed_replacement; exact H1).
    + cbn [well_formed]. now rewrite Hw.
    + destruct t1 as [|c2 t2]; [reflexivity|]. simpl in Hlen.
      destruct (is_continuation c2) eqn:H2;
        [|rewrite well_formed_replacement; exact H1].
      cbn [well_formed]. rewrite Hw, H2. apply IH. lia.
    + destruct t1 as [|c2 t2]; [reflexivity|]. simpl in Hlen.
      destruct (second_ok c1 c2) eqn:H2;
        [|rewrite well_formed_replacement; exact H1].
      destruct t2 as [|c3 t3]; [reflexivity|]. simpl in Hlen.
      destruct (is_continuation c3) eqn:H3;
        [|rewrite well_formed_replacement; apply IH; simpl; lia].
      cbn [well_formed]. rewrite Hw, H2, H3. apply IH. lia.
    + destruct t1 as [|c2 t2]; [reflexivity|]. simpl in Hlen.
      destruct (second_ok c1 c2) eqn:H2;
        [|rewrite well_formed_replacement; exact H1].
      destruct t2 as [|c3 t3]; [reflexivity|]. simpl in Hlen.
      destruct (is_continuation c3) eqn:H3;
        [|rewrite well_formed_replacement; apply IH; simpl; lia].
      destruct t3 as [|c4 t4]; [reflexivity|]. simpl in Hlen.
      destruct (is_continuation c4) eqn:H4;
        [|rewrite well_formed_replacement; apply IH; simpl; lia].
      cbn [well_formed]. rewrite Hw, H2, H3, H4. apply IH. lia.
Qed.

Lemma decode_replace_well_formed b : well_formed (decode_replace b) = true.
Proof. now apply (decode_replace_well_formed_upto (String.length b)). Qed.

Lemma decode_replace_fixes_upto n :
  forall b,
    String.length b <= n -> well_formed b = true -> decode_replace b = b.
Proof.
  induction n as [|n IH]; intros b Hlen Hwf.
  - destruct b; [reflexivity | simpl in Hlen; lia].
  - destruct b as [|c1 t1]; [reflexivity|]. simpl in Hlen.
    cbn [decode_replace well_formed] in *.
    destruct (width c1) as [|[|[|[|[|?]]]]] eqn:Hw; try discriminate.
    + f_equal. apply IH; [lia | assumption].
    + destruct t1 as [|c2 t2]; [discriminate|]. simpl in Hlen.
      apply andb_prop in Hwf as [H2 Hwf]. rewrite H2.
      do 2 f_equal. apply IH; [lia | assumption].
    + destruct t1 as [|c2 [|c3 t3]]; try discriminate. simpl in Hlen.
      apply andb_prop in Hwf as [Hwf H4]. apply andb_prop in Hwf as [H2 H3].
      rewrite H2, H3. do 3 f_equal. apply IH; [lia | assumption].
    + destruct t1 as [|c2 [|c3 [|c4 t4]]]; try discriminate. simpl in Hlen.
      apply andb_prop in Hwf as [Hwf H5]. apply andb_prop in Hwf as [Hwf H4].
      apply andb_prop in Hwf as [H2 H3].
      rewrite H2, H3, H4. do 4 f_equal. apply IH; [lia | assumption].
Qed.

Lemma decode_replace_fixes b : well_formed b = true -> decode_replace b = b.
Proof. now apply (decode_replace_fixes_upto (String.length b)). Qed.

End Utf8Facts.

(** ** What the computations leave untouched *)

Section Frames.
Context {A B : Type}.

Lemma keeps_store_ret (a : A) : keeps_store (ret a).
Proof. now intros w. Qed.

Lemma keeps_store_raise e : keeps_store (@raise A e).
Proof. now intros w. Qed.

Lemma keeps_store_lift (o : outcome A) : keeps_store (lift o).
Proof. now destruct o; intros w. Qed.

Lemma keeps_store_bind (m : M A) (k : A -> M B) :
  keeps_store m -> (forall a, keeps_store (k a)) -> keeps_store (bind m k).
Proof.
  intros Hm Hk w. unfold bind. specialize (Hm w).
  destruct (m w) as [[a|e] w']; simpl in *; [|assumption].
  now rewrite Hk.
Qed.

Lemma keeps_store_try_except (m : M A) (handler : exn -> M A) :
  keeps_store m -> (forall e, keeps_store (handler e)) ->
  keeps_store (try_except m handler).
Proof.
  intros Hm Hh w. unfold try_except. specialize (Hm w).
  destruct (m w) as [[a|e] w']; simpl in *; [assumption|].
  now rewrite Hh.
Qed.

Lemma keeps_store_try_finally (m : M A) (final : M unit) :
  keeps_store m -> keeps_store final -> keeps_store (try_finally m final).
Proof.
  intros Hm Hf w. unfold try_finally. specialize (Hm w).
  destruct (m w) as [r w']. specialize (Hf w').
  destruct (final w') as [[[]|e] w'']; simpl in *; congruence.
Qed.

Lemma keeps_flow_ret (a : A) : keeps_flow (ret a).
Proof. now intros w. Qed.

Lemma keeps_flow_raise e : keeps_flow (@raise A e).
Proof. now intros w. Qed.

Lemma keeps_flow_lift (o : outcome A) : keeps_flow (lift o).
Proof. now destruct o; intros w. Qed.

Lemma keeps_flow_bind (m : M A) (k : A -> M B) :
  keeps_flow m -> (forall a, keeps_flow (k a)) -> keeps_flow (bind m k).
Proof.
  intros Hm Hk w. unfold bind. specialize (Hm w).
  destruct (m w) as [[a|e] w']; simpl in *; [|assumption].
  now rewrite Hk.
Qed.

Lemma keeps_flow_try_except (m : M A) (handler : exn -> M A) :
  keeps_flow m -> (forall e, keeps_flow (handler e)) ->
  keeps_flow (try_except m handler).
Proof.
  intros Hm Hh w. unfold try_except. specialize (Hm w).
  destruct (m w) as [[a|e] w']; simpl in *; [assumption|].
  now rewrite Hh.
Qed.

End Frames.

Lemma keeps_store_get_flow : keeps_store get_flow.
Proof. now intros w. Qed.
Lemma keeps_store_put_flow f : keeps_store (put_flow f).
Proof. now intros w. Qed.
Lemma keeps_store_get_stored_headers : keeps_store get_stored_headers.
Proof. now intros w. Qed.
Lemma keeps_store_emit e : keeps_store (emit e).
Proof. now intros w. Qed.
Lemma keeps_store_fault_point env site : keeps_store (fault_point env site).
Proof. unfold fault_point. now destruct (fault env site); intros w. Qed.

Lemma keeps_flow_get_flow : keeps_flow get_flow.
Proof. now intros w. Qed.
Lemma keeps_flow_get_stored_headers : keeps_flow get_stored_headers.
Proof. now intros w. Qed.
Lemma keeps_flow_put_stored_headers s : keeps_flow (put_stored_headers s).
Proof. now intros w. Qed.
Lemma keeps_flow_emit e : keeps_flow (emit e).
Proof. now intros w. Qed.
Lemma keeps_flow_fault_point env site : keeps_flow (fault_point env site).
Proof. unfold fault_point. now destruct (fault env site); intros w. Qed.

Create HintDb frame.
#[local] Hint Resolve
  keeps_store_ret keeps_store_raise keeps_store_lift keeps_store_bind
  keeps_store_try_except keeps_store_try_finally keeps_store_get_flow
  keeps_store_put_flow keeps_store_get_stored_headers keeps_store_emit
  keeps_store_fault_point
  keeps_flow_ret keeps_flow_raise keeps_flow_lift keeps_flow_bind
  keeps_flow_try_except keeps_flow_get_flow keeps_flow_get_stored_headers
  keeps_flow_put_stored_headers keeps_flow_emit keeps_flow_fault_point
  : frame.

Ltac frame :=
  repeat first
    [ progress (intros; auto with frame)
    | apply keeps_store_bind | apply keeps_flow_bind
    | apply keeps_store_try_except | apply keeps_flow_try_except
    | apply keeps_store_try_finally
    | match goal with
      | |- keeps_store (match ?x with _ => _ end) => destruct x
      | |- keeps_flow (match ?x with _ => _ end) => destruct x
      | |- keeps_store (if ?x then _ else _) => destruct x
      | |- keeps_flow (if ?x then _ else _) => destruct x
      end ].

Lemma keeps_store_the_response attr : keeps_store (the_response attr).
Proof. unfold the_response. frame. Qed.
Lemma keeps_flow_the_response attr : keeps_flow (the_response attr).
Proof. unfold the_response. frame. Qed.
#[local] Hint Resolve keeps_store_the_response keeps_flow_the_response : frame.

Lemma keeps_store_set_response_header key value :
  keeps_store (set_response_header key value).
Proof. unfold set_response_header. frame. Qed.
#[local] Hint Resolve keeps_store_set_response_header : frame.

Lemma keeps_store_restore_to_client removed :
  keeps_store (restore_to_client removed).
Proof. unfold restore_to_client. frame. Qed.

Lemma keeps_store_decoded_content c : keeps_store (decoded_content c).
Proof. unfold decoded_content. frame. Qed.
Lemma keeps_flow_decoded_content c : keeps_flow (decoded_content c).
Proof. unfold decoded_content. frame. Qed.
#[local] Hint Resolve
  keeps_store_decoded_content keeps_flow_decoded_content : frame.

Lemma keeps_store_reinstate env items req_copy resp_copy :
  keeps_store (reinstate env items req_copy resp_copy).
Proof.
  revert req_copy resp_copy.
  induction items as [|[k v] items IH]; intros; simpl; frame.
Qed.
Lemma keeps_flow_reinstate env items req_copy resp_copy :
  keeps_flow (reinstate env items req_copy resp_copy).
Proof.
  revert req_copy resp_copy.
  induction items as [|[k v] items IH]; intros; simpl; frame.
Qed.
#[local] Hint Resolve keeps_store_reinstate keeps_flow_reinstate : frame.

Lemma keeps_store_report env fid removed : keeps_store (report env fid removed).
Proof.
  unfold report, build_payload, thread_start, log_info, log_error. frame.
Qed.

Lemma keeps_flow_report env fid removed : keeps_flow (report env fid removed).
Proof.
  unfold report, build_payload, thread_start, log_info, log_error. frame.
Qed.

Lemma keeps_store_handle_connector_service env headers :
  keeps_store (_handle_connector_service env headers).
Proof.
  unfold _handle_connector_service, http_call, set_response, flow_resume,
    log_info, log_error.
  frame.
Qed.

Lemma keeps_store_send_enriched_async env payload fid :
  keeps_store (_send_enriched_async env payload fid).
Proof.
  unfold _send_enriched_async, http_call, log_info, log_error. frame.
Qed.

(** ** The hooks, case by case *)

Section HookEquations.

Lemma request_connector w :
  is_connector (flow w) = true ->
  request w =
  (Returned tt,
   {| flow := HTTPFlow.with_intercepted true (flow w);
      stored_headers := stored_headers w;
      trace :=
        trace w
        ++ [LogInfo (MsgIntercepting (HTTPFlow.id (flow w)))]
        ++ (if HTTPFlow.intercepted (flow w) then []
            else [Intercept (HTTPFlow.id (flow w))])
        ++ [ThreadStart
              (Thread_handle_connector_service (HTTPFlow.id (flow w))
                 (Headers.to_dict
                    (Request.headers (HTTPFlow.request (flow w)))))] |}).
Proof.
  intros Hc. unfold is_connector in Hc.
  destruct w as [[fid rq rs i] s tr]; simpl in *.
  unfold request, bind, get_flow; simpl. rewrite Hc.
  unfold log_info, flow_intercept, thread_start, bind, emit, get_flow,
    put_flow, ret; simpl.
  destruct i; simpl; rewrite <- ?app_assoc; reflexivity.
Qed.

Lemma request_normal_with_id w R :
  is_connector (flow w) = false ->
  Headers.getitem "x-request-id" (Request.headers (HTTPFlow.request (flow w)))
    = Some R ->
  request w =
  (Returned tt,
   {| flow :=
        HTTPFlow.with_request
          (Request.with_headers
             (Headers.without "x-request-id"
                (Request.headers (HTTPFlow.request (flow w))))
             (HTTPFlow.request (flow w))) (flow w);
      stored_headers :=
        put (HTTPFlow.id (flow w)) (correlation_entry R) (stored_headers w);
      trace :=
        trace w
        ++ [LogInfo
              (MsgStored (HTTPFlow.id (flow w)) (correlation_entry R))] |}).
Proof.
  intros Hc HR. unfold is_connector in Hc.
  destruct w as [[fid rq rs i] s tr]; simpl in *.
  unfold request, bind, get_flow; simpl. rewrite Hc.
  rewrite (getitem_contains _ _ _ HR), HR.
  rewrite (delitem_present _ _ (getitem_contains _ _ _ HR)).
  reflexivity.
Qed.

Lemma request_normal_without_id w :
  is_connector (flow w) = false ->
  Headers.contains "x-request-id"
    (Request.headers (HTTPFlow.request (flow w))) = false ->
  request w = (Returned tt, w).
Proof.
  intros Hc HR. unfold is_connector in Hc.
  destruct w as [[fid rq rs i] s tr]; simpl in *.
  unfold request, bind, get_flow; simpl. rewrite Hc, HR. reflexivity.
Qed.

Lemma response_absent env w :
  stored_headers w !! HTTPFlow.id (flow w) = None ->
  response env w = (Returned tt, w).
Proof.
  intros Habs. unfold response, bind, get_flow, get_stored_headers,
    take_if_present; simpl.
  now rewrite Habs.
Qed.

Lemma restore_to_client_present removed w r :
  HTTPFlow.response (flow w) = Some r ->
  restore_to_client removed w =
  (Returned tt,
   {| flow := HTTPFlow.with_response (Some (restored removed r)) (flow w);
      stored_headers := stored_headers w; trace := trace w |}).
Proof.
  intros Hr. destruct w as [[fid rq rs i] s tr]; simpl in *. subst rs.
  unfold restore_to_client, restored.
  destruct (PyDict.get "x-request-id" removed); reflexivity.
Qed.

Lemma response_present env w removed r :
  stored_headers w !! HTTPFlow.id (flow w) = Some removed ->
  HTTPFlow.response (flow w) = Some r ->
  response env w =
  report env (HTTPFlow.id (flow w)) removed
    {| flow := HTTPFlow.with_response (Some (restored removed r)) (flow w);
       stored_headers := delete (HTTPFlow.id (flow w)) (stored_headers w);
       trace := trace w |}.
Proof.
  intros Hs Hr.
  unfold response, bind at 1 2, get_flow, get_stored_headers, take_if_present.
  simpl. rewrite Hs. unfold bind at 1, put_stored_headers. simpl.
  unfold bind at 1.
  now rewrite (restore_to_client_present removed _ r) by exact Hr.
Qed.

Lemma response_present_flow env w removed r :
  stored_headers w !! HTTPFlow.id (flow w) = Some removed ->
  HTTPFlow.response (flow w) = Some r ->
  flow (snd (response env w)) =
    HTTPFlow.with_response (Some (restored removed r)) (flow w)
  /\ stored_headers (snd (response env w)) =
       delete (HTTPFlow.id (flow w)) (stored_headers w).
Proof.
  intros Hs Hr. rewrite (response_present env w removed r Hs Hr).
  now rewrite keeps_flow_report, keeps_store_report.
Qed.

Lemma response_store env w :
  stored_headers (snd (response env w)) =
  snd (take_if_present (HTTPFlow.id (flow w)) (stored_headers w)).
Proof.
  unfold response, bind at 1 2, get_flow, get_stored_headers. simpl.
  unfold take_if_present.
  destruct (stored_headers w !! HTTPFlow.id (flow w)) as [removed|]; simpl;
    [|reflexivity].
  unfold bind at 1, put_stored_headers. simpl.
  assert (H : keeps_store (bind (restore_to_client removed)
                (fun _ => report env (HTTPFlow.id (flow w)) removed))).
  { apply keeps_store_bind; intros;
      [apply keeps_store_restore_to_client | apply keeps_store_report]. }
  now rewrite H.
Qed.

End HookEquations.

(** ** Other exchanges on the shared store *)

Section Interleaving.

Lemma request_store w :
  stored_headers (snd (request w)) = stored_headers w
  \/ exists v,
       Headers.getitem "x-request-id"
         (Request.headers (HTTPFlow.request (flow w))) = Some v
       /\ stored_headers (snd (request w)) =
          put (HTTPFlow.id (flow w)) (correlation_entry v) (stored_headers w).
Proof.
  destruct (is_connector (flow w)) eqn:Hc.
  - left. now rewrite request_connector.
  - destruct (Headers.contains "x-request-id"
                (Request.headers (HTTPFlow.request (flow w)))) eqn:Hx.
    + right. apply contains_getitem in Hx.
      eexists. split; [exact Hx|].
      now rewrite (request_normal_with_id _ _ Hc Hx).
    + left. now rewrite request_normal_without_id.
Qed.

Lemma perform_flow env a w : flow (perform env a w) = flow w.
Proof. now destruct a. Qed.

Lemma perform_store_foreign env fid a w :
  foreign fid a ->
  stored_headers (perform env a w) !! fid = stored_headers w !! fid.
Proof.
  destruct a as [g|g|g headers|payload fid']; simpl; intros Hf.
  - set (wg := {| flow := g; stored_headers := stored_headers w;
                  trace := trace w |}).
    destruct (request_store wg) as [->|[v [_ ->]]]; [reflexivity|].
    unfold put. simpl. now rewrite lookup_insert_ne.
  - rewrite response_store. simpl. unfold take_if_present.
    destruct (stored_headers w !! HTTPFlow.id g); simpl; [|reflexivity].
    now rewrite lookup_delete_ne.
  - now rewrite keeps_store_handle_connector_service.
  - now rewrite keeps_store_send_enriched_async.
Qed.

Lemma run_flow env acts w : flow (run env acts w) = flow w.
Proof.
  unfold run. revert w.
  induction acts as [|a acts IH]; intros w; simpl; [reflexivity|].
  now rewrite IH, perform_flow.
Qed.

Lemma run_store_foreign env fid acts w :
  Forall (foreign fid) acts ->
  stored_headers (run env acts w) !! fid = stored_headers w !! fid.
Proof.
  intros Hall. unfold run. revert w.
  induction Hall as [|a acts Ha Hall IH]; intros w; simpl; [reflexivity|].
  now rewrite IH, perform_store_foreign.
Qed.

End Interleaving.

(** ** The correlation header *)

(** C1. On the normal path, for a request that carries [x-request-id] with
    value [R]: the request hook returns, the request it leaves for the
    upstream has no [x-request-id] field and all its other fields as
    before; and, whatever hooks of other flows and threads run in between
    and whatever the origin answers, after the response hook the response
    bound for the client reads [R] under [x-request-id] and [response]
    under [x-state]. This holds for every environment, so also when the
    report that follows fails. *)
Theorem correlation_header_stripped_then_restored
    (env : Env) (w : World) (R : string)
    (others : list activity) (origin : Response.t) :
  is_connector (flow w) = false ->
  Headers.getitem "x-request-id"
    (Request.headers (HTTPFlow.request (flow w))) = Some R ->
  Forall (foreign (HTTPFlow.id (flow w))) others ->
  let forwarded := snd (request w) in
  let answered := origin_responds origin (run env others forwarded) in
  let delivered := snd (response env answered) in
  fst (request w) = Returned tt
  /\ Headers.contains "x-request-id"
       (Request.headers (HTTPFlow.request (flow forwarded))) = false
  /\ (forall key, Headers.same_name "x-request-id" key = false ->
        Headers.get_all key
          (Request.headers (HTTPFlow.request (flow forwarded))) =
        Headers.get_all key (Request.headers (HTTPFlow.request (flow w))))
  /\ exists r,
       HTTPFlow.response (flow delivered) = Some r
       /\ Headers.getitem "x-request-id" (Response.headers r) = Some R
       /\ Headers.getitem "x-state" (Response.headers r) = Some "response".
Proof.
  intros Hc HR Hothers. cbv zeta.
  rewrite (request_normal_with_id w R Hc HR). simpl fst. simpl snd.
  match goal with |- context [run env others ?x] => set (w1 := x) end.
  set (answered := origin_responds origin (run env others w1)).
  split; [reflexivity|].
  split; [apply contains_without|].
  split; [intros key Hkey; now apply get_all_without_other|].
  assert (Hentry : stored_headers answered !! HTTPFlow.id (flow answered)
                   = Some (correlation_entry R)).
  { subst answered. unfold origin_responds. simpl.
    rewrite run_flow, run_store_foreign by exact Hothers.
    subst w1. simpl. unfold put. apply lookup_insert_eq. }
  assert (Hresp : HTTPFlow.response (flow answered) = Some origin)
    by reflexivity.
  destruct (response_present_flow env answered _ _ Hentry Hresp) as [Hflow _].
  rewrite Hflow. simpl.
  eexists. split; [reflexivity|]. unfold restored. simpl.
  split.
  - rewrite getitem_setitem_other by reflexivity.
    apply getitem_setitem_eq.
  - apply getitem_setitem_eq.
Qed.

Lemma correlation_header_stripped_then_restored_witness :
  exists r,
    HTTPFlow.response
      (flow
         (snd
            (response Sample.timeout_env
               (origin_responds (Sample.ok_response [("server", "origin")])
                  (run Sample.timeout_env Sample.other_traffic
                     (snd (request (Sample.fresh Sample.with_correlation))))))))
    = Some r
    /\ Headers.getitem "x-request-id" (Response.headers r) = Some "abc123"
    /\ Headers.getitem "x-state" (Response.headers r) = Some "response".
Proof.
  destruct (correlation_header_stripped_then_restored
              Sample.timeout_env (Sample.fresh Sample.with_correlation)
              "abc123" Sample.other_traffic
              (Sample.ok_response [("server", "origin")]))
    as (_ & _ & _ & H).
  - reflexivity.
  - reflexivity.
  - repeat constructor; simpl; discriminate.
  - exact H.
Defined.

(** C8. On the normal path, for a request without [x-request-id] whose
    flow id has no store entry: the request hook returns and changes
    nothing at all (no header, no store entry, no effect); no entry for
    the flow appears while hooks of other flows and threads run; and the
    response hook returns with the world as the origin left it, so no
    header is added to the response and no report is scheduled. *)
Theorem no_correlation_header_leaves_exchange_untouched
    (env : Env) (w : World) (others : list activity) (origin : Response.t) :
  is_connector (flow w) = false ->
  Headers.contains "x-request-id"
    (Request.headers (HTTPFlow.request (flow w))) = false ->
  stored_headers w !! HTTPFlow.id (flow w) = None ->
  Forall (foreign (HTTPFlow.id (flow w))) others ->
  let answered := origin_responds origin (run env others w) in
  request w = (Returned tt, w)
  /\ stored_headers answered !! HTTPFlow.id (flow w) = None
  /\ response env answered = (Returned tt, answered)
  /\ HTTPFlow.request (flow answered) = HTTPFlow.request (flow w)
  /\ HTTPFlow.response (flow answered) = Some origin.
Proof.
  intros Hc Hx Hfresh Hothers answered.
  assert (Hstore : stored_headers answered !! HTTPFlow.id (flow w) = None).
  { subst answered. unfold origin_responds. simpl.
    now rewrite run_store_foreign. }
  assert (Hid : HTTPFlow.id (flow answered) = HTTPFlow.id (flow w)).
  { subst answered. unfold origin_responds. simpl. now rewrite run_flow. }
  split; [now apply request_normal_without_id|].
  split; [exact Hstore|].
  split; [apply response_absent; now rewrite Hid|].
  subst answered. unfold origin_responds. simpl. now rewrite run_flow.
Qed.

Lemma no_correlation_header_leaves_exchange_untouched_witness :
  let answered :=
    origin_responds (Sample.ok_response [("server", "origin")])
      (run Sample.timeout_env Sample.other_traffic
         (Sample.fresh Sample.without_correlation)) in
  request (Sample.fresh Sample.without_correlation) =
    (Returned tt, Sample.fresh Sample.without_correlation)
  /\ response Sample.timeout_env answered = (Returned tt, answered).
Proof.
  destruct (no_correlation_header_leaves_exchange_untouched
              Sample.timeout_env (Sample.fresh Sample.without_correlation)
              Sample.other_traffic
              (Sample.ok_response [("server", "origin")]))
    as (H1 & _ & H2 & _).
  - reflexivity.
  - reflexivity.
  - reflexivity.
  - repeat constructor; simpl; discriminate.
  - split; [exact H1 | exact H2].
Defined.

(** ** The exchange store *)

(** C9. The response hook on a flow whose id has no entry finds absence:
    it returns without an exception and changes nothing. After a single
    put for the id of the flow, a first response hook takes the stored
    mapping, so that it goes on to restore the response and to build the
    report from exactly that mapping, and removes the entry with it; a
    second response hook on the resulting world, in any environment, finds
    absence, returns and changes nothing. *)
Theorem response_hook_takes_a_put_entry_once_then_finds_absence
    (env env' : Env) (w : World) (removed : PyDict.t string)
    (r : Response.t) :
  HTTPFlow.response (flow w) = Some r ->
  let fid := HTTPFlow.id (flow w) in
  let stocked :=
    {| flow := flow w; stored_headers := put fid removed (stored_headers w);
       trace := trace w |} in
  let first := response env stocked in
  (stored_headers w !! fid = None ->
   take_if_present fid (stored_headers w) = (None, stored_headers w)
   /\ response env w = (Returned tt, w))
  /\ take_if_present fid (stored_headers stocked) =
     (Some removed, delete fid (stored_headers w))
  /\ first =
     report env fid removed
       {| flow := HTTPFlow.with_response (Some (restored removed r)) (flow w);
          stored_headers := delete fid (stored_headers w);
          trace := trace w |}
  /\ flow (snd first) =
     HTTPFlow.with_response (Some (restored removed r)) (flow w)
  /\ stored_headers (snd first) = delete fid (stored_headers w)
  /\ take_if_present fid (stored_headers (snd first)) =
     (None, stored_headers (snd first))
  /\ response env' (snd first) = (Returned tt, snd first).
Proof.
  intros Hr. cbv zeta.
  set (stocked := {| flow := flow w |}).
  assert (Hs : stored_headers stocked !! HTTPFlow.id (flow stocked)
               = Some removed)
    by (unfold stocked, put; simpl; apply lookup_insert_eq).
  assert (Hdel : delete (HTTPFlow.id (flow w)) (stored_headers stocked)
                 = delete (HTTPFlow.id (flow w)) (stored_headers w))
    by (unfold stocked, put; simpl; apply delete_insert_eq).
  destruct (response_present_flow env stocked removed r Hs Hr)
    as [Hflow Hstore].
  change (flow stocked) with (flow w) in Hflow, Hstore.
  rewrite Hdel in Hstore.
  assert (Hgone : stored_headers (snd (response env stocked))
                  !! HTTPFlow.id (flow w) = None)
    by (rewrite Hstore; apply lookup_delete_eq).
  split_and!.
  - intros Habs. split; [|now apply response_absent].
    unfold take_if_present. now rewrite Habs.
  - unfold take_if_present.
    change (HTTPFlow.id (flow w)) with (HTTPFlow.id (flow stocked)) at 1.
    now rewrite Hs, Hdel.
  - rewrite (response_present env stocked removed r Hs Hr).
    change (flow stocked) with (flow w). now rewrite Hdel.
  - exact Hflow.
  - exact Hstore.
  - unfold take_if_present. now rewrite Hgone.
  - apply response_absent. now rewrite Hflow.
Qed.

Lemma response_hook_takes_a_put_entry_once_then_finds_absence_witness :
  let stocked :=
    {| flow := flow Sample.awaiting_enrichment;
       stored_headers := put "f3" [("x-request-id", "abc123")] ∅;
       trace := [] |} in
  let first := response Sample.timeout_env stocked in
  flow (snd first) =
    HTTPFlow.with_response
      (Some
         (restored [("x-request-id", "abc123")]
            (Sample.ok_response [("server", "origin")])))
      (flow Sample.awaiting_enrichment)
  /\ stored_headers (snd first) = delete "f3" ∅
  /\ response Sample.timeout_env (snd first) = (Returned tt, snd first).
Proof.
  cbv zeta.
  destruct (response_hook_takes_a_put_entry_once_then_finds_absence
              Sample.timeout_env Sample.timeout_env
              {| flow := flow Sample.awaiting_enrichment;
                 stored_headers := ∅; trace := [] |}
              [("x-request-id", "abc123")]
              (Sample.ok_response [("server", "origin")]))
    as (_ & _ & _ & H1 & H2 & _ & H3).
  - reflexivity.
  - split_and!; [exact H1 | exact H2 | exact H3].
Defined.

Lemma perform_holds_correlation_only env a w :
  holds_correlation_only (stored_headers w) ->
  holds_correlation_only (stored_headers (perform env a w)).
Proof.
  intros Hinv fid removed.
  destruct a as [g|g|g headers|payload fid']; simpl.
  - set (wg := {| flow := g; stored_headers := stored_headers w;
                  trace := trace w |}).
    destruct (request_store wg) as [->|[v [_ ->]]]; [apply Hinv|].
    unfold put. simpl. rewrite lookup_insert.
    case_decide; [|apply Hinv]. intros [= <-]. now exists v.
  - rewrite response_store. simpl. unfold take_if_present.
    destruct (stored_headers w !! HTTPFlow.id g); simpl; [|apply Hinv].
    rewrite lookup_delete. case_decide; [discriminate | apply Hinv].
  - rewrite keeps_store_handle_connector_service. apply Hinv.
  - rewrite keeps_store_send_enriched_async. apply Hinv.
Qed.

Lemma run_holds_correlation_only env acts w :
  holds_correlation_only (stored_headers w) ->
  holds_correlation_only (stored_headers (run env acts w)).
Proof.
  unfold run. revert w.
  induction acts as [|a acts IH]; intros w Hinv; simpl; [exact Hinv|].
  apply IH. now apply perform_holds_correlation_only.
Qed.

(** C10. Starting from an empty store, after any sequence of request
    hooks, response hooks and threads on any flows, every entry of the
    store is the one-key mapping from [x-request-id] to a value; and a
    request hook either leaves the store as it is or inserts, under the id
    of its flow, that mapping with the value read from the [x-request-id]
    header of its request. So an entry taken by the response hook always
    contains the correlation header. *)
Theorem store_entries_hold_only_the_correlation_header
    (env : Env) (acts : list activity) (w : World) :
  stored_headers w = ∅ ->
  (forall fid removed,
     stored_headers (run env acts w) !! fid = Some removed ->
     exists v,
       removed = [("x-request-id", v)]
       /\ PyDict.keys removed = ["x-request-id"]
       /\ PyDict.get "x-request-id" removed = Some v)
  /\ (forall w',
        stored_headers (snd (request w')) = stored_headers w'
        \/ exists v,
             Headers.getitem "x-request-id"
               (Request.headers (HTTPFlow.request (flow w'))) = Some v
             /\ stored_headers (snd (request w')) =
                <[HTTPFlow.id (flow w') := [("x-request-id", v)]]>
                  (stored_headers w')).
Proof.
  intros Hempty. split.
  - intros fid removed Hlook.
    assert (Hinit : holds_correlation_only (stored_headers w)).
    { rewrite Hempty. intros ? ? H. now rewrite lookup_empty in H. }
    destruct (run_holds_correlation_only env acts w Hinit _ _ Hlook) as [v ->].
    exists v. now split_and!.
  - apply request_store.
Qed.

Lemma store_entries_hold_only_the_correlation_header_witness :
  exists v,
    stored_headers
      (run Sample.timeout_env [RequestHook Sample.with_correlation]
         (Sample.fresh Sample.without_correlation)) !! "f4"
    = Some [("x-request-id", v)].
Proof.
  destruct (store_entries_hold_only_the_correlation_header
              Sample.timeout_env [RequestHook Sample.with_correlation]
              (Sample.fresh Sample.without_correlation) eq_refl)
    as (H & _).
  destruct (H "f4" [("x-request-id", "abc123")] eq_refl) as (v & Hv & _).
  exists v. now rewrite <- Hv.
Defined.

Ltac run_monad :=
  unfold bind, try_except, try_finally, lift, ret, raise, get_flow, put_flow,
    emit, fault_point, log_info, log_error, thread_start, http_call,
    set_response, flow_resume, flow_intercept; simpl.

(** ** The connector worker *)

(** What [http.Response.make] builds from headers that name no content
    encoding: the body is stored as given, and the content length is
    written unless a transfer encoding is declared. *)
Lemma make_without_content_encoding (c : Codec.t) (status : Z)
    (content : string) (d : PyDict.t string) :
  Headers.getitem "content-encoding" (PyDict.items d) = None ->
  Response.make c status content d =
    Returned
      {| Response.status_code := status;
         Response.headers :=
           if Headers.contains "transfer-encoding" (PyDict.items d)
           then PyDict.items d
           else Headers.setitem "content-length"
                  (str_of_nat (String.length content)) (PyDict.items d);
         Response.content := Returned (Some content) |}.
Proof.
  intros Hce.
  unfold Response.make, Response.set_content. rewrite Hce. simpl.
  destruct (Headers.contains "transfer-encoding" (PyDict.items d));
    unfold Response.get_content.
  - now rewrite Hce.
  - rewrite getitem_setitem_other by reflexivity. now rewrite Hce.
Qed.

Lemma make_error_response (c : Codec.t) (e : exn) :
  Response.make c 502 (error_body e) [("Content-Type", "text/plain")] =
    Returned
      {| Response.status_code := 502;
         Response.headers :=
           [("Content-Type", "text/plain");
            ("content-length", str_of_nat (String.length (error_body e)))];
         Response.content := Returned (Some (error_body e)) |}.
Proof. now rewrite make_without_content_encoding. Qed.

(** C2. The connector worker always returns, and the flow is not paused
    when it does; if the flow was paused, the last effect of the worker is
    the resume. Whenever the [try] body fails (the request body cannot be
    read, the outbound call raises, for a timeout or a connection error,
    or building the response from the answer raises), the response
    installed on the flow has status 502, the body
    ["Error contacting connector service: "] followed by the description of
    the error, and the content type [text/plain]. *)
Theorem connector_failure_gives_502_and_worker_always_resumes
    (env : Env) (headers : PyDict.t string) (w : World) :
  let result := _handle_connector_service env headers w in
  fst result = Returned tt
  /\ HTTPFlow.intercepted (flow (snd result)) = false
  /\ (HTTPFlow.intercepted (flow w) = true ->
      exists tr,
        trace (snd result) = tr ++ [Resume (HTTPFlow.id (flow w))])
  /\ (forall e,
        connector_failure env headers (flow w) = Some e ->
        exists r,
          HTTPFlow.response (flow (snd result)) = Some r
          /\ Response.status_code r = 502%Z
          /\ Response.content r =
               Returned (Some ("Error contacting connector service: " +:+ e))
          /\ Headers.getitem "content-type" (Response.headers r)
             = Some "text/plain").
Proof.
  destruct w as [[fid rq rs i] s tr].
  unfold connector_failure, service_headers, _handle_connector_service.
  simpl. run_monad.
  destruct (Request.content rq) as [data|e0]; simpl.
  - destruct (requests_request env _) as [svc|e1]; simpl.
    + destruct (SvcResponse.headers svc) as [hd|e2]; simpl;
        destruct (fault env SiteMakeResponse) as [e3|]; simpl;
        try destruct (Response.make (codec env) _ _ _) as [made|e4]; simpl;
        rewrite ?make_error_response; simpl;
        destruct i; simpl;
        (split_and!;
         [ reflexivity | reflexivity
         | intros; try discriminate; eexists; rewrite ?app_assoc; reflexivity
         | intros e [= <-] || (intros e He; discriminate He);
           eexists; split_and!; reflexivity ]).
    + rewrite ?make_error_response; simpl.
      destruct i; simpl;
        (split_and!;
         [ reflexivity | reflexivity
         | intros; try discriminate; eexists; rewrite ?app_assoc; reflexivity
         | intros e [= <-]; eexists; split_and!; reflexivity ]).
  - rewrite ?make_error_response; simpl.
    destruct i; simpl;
      (split_and!;
       [ reflexivity | reflexivity
       | intros; try discriminate; eexists; reflexivity
       | intros e [= <-]; eexists; split_and!; reflexivity ]).
Qed.

Lemma connector_failure_gives_502_and_worker_always_resumes_witness :
  let paused := snd (request (Sample.fresh Sample.connector_two_accepts)) in
  let result :=
    _handle_connector_service Sample.timeout_env
      (Headers.to_dict
         (Request.headers (HTTPFlow.request Sample.connector_two_accepts)))
      paused in
  (exists tr, trace (snd result) = tr ++ [Resume "f1"])
  /\ exists r,
       HTTPFlow.response (flow (snd result)) = Some r
       /\ Response.status_code r = 502%Z
       /\ Response.content r =
            Returned
              (Some "Error contacting connector service: Read timed out.").
Proof.
  cbv zeta.
  destruct (connector_failure_gives_502_and_worker_always_resumes
              Sample.timeout_env
              (Headers.to_dict
                 (Request.headers
                    (HTTPFlow.request Sample.connector_two_accepts)))
              (snd (request (Sample.fresh Sample.connector_two_accepts))))
    as (_ & _ & Hresume & Hfail).
  split.
  - apply Hresume. reflexivity.
  - destruct (Hfail "Read timed out." eq_refl) as (r & Hr & Hs & Hc & _).
    exists r. now split_and!.
Defined.

(** ** Effects of the two paths *)

Section Appends.
Context {A B : Type} (bad : effect -> bool).

Lemma appends_no_pure (m : M A) :
  (forall w, trace (snd (m w)) = trace w) -> appends_no bad m.
Proof. intros H w. exists []. now rewrite H, app_nil_r. Qed.

Lemma appends_no_ret (a : A) : appends_no bad (ret a).
Proof. now apply appends_no_pure. Qed.

Lemma appends_no_raise e : appends_no bad (@raise A e).
Proof. now apply appends_no_pure. Qed.

Lemma appends_no_lift (o : outcome A) : appends_no bad (lift o).
Proof. destruct o; now apply appends_no_pure. Qed.

Lemma appends_no_bind (m : M A) (k : A -> M B) :
  appends_no bad m -> (forall a, appends_no bad (k a)) ->
  appends_no bad (bind m k).
Proof.
  intros Hm Hk w. unfold bind. destruct (Hm w) as [d1 [H1 G1]].
  destruct (m w) as [[a|e] w']; simpl in *; [|now exists d1].
  destruct (Hk a w') as [d2 [H2 G2]]. exists (d1 ++ d2).
  rewrite H2, H1, app_assoc, existsb_app, G1, G2. now split.
Qed.

Lemma appends_no_try_except (m : M A) (handler : exn -> M A) :
  appends_no bad m -> (forall e, appends_no bad (handler e)) ->
  appends_no bad (try_except m handler).
Proof.
  intros Hm Hh w. unfold try_except. destruct (Hm w) as [d1 [H1 G1]].
  destruct (m w) as [[a|e] w']; simpl in *; [now exists d1|].
  destruct (Hh e w') as [d2 [H2 G2]]. exists (d1 ++ d2).
  rewrite H2, H1, app_assoc, existsb_app, G1, G2. now split.
Qed.

Lemma appends_no_emit e : bad e = false -> appends_no bad (emit e).
Proof. intros H w. exists [e]. simpl. now rewrite H. Qed.

End Appends.

Lemma appends_no_fault_point bad env site :
  appends_no bad (fault_point env site).
Proof.
  unfold fault_point. destruct (fault env site); now apply appends_no_pure.
Qed.

Lemma appends_no_get_flow bad : appends_no bad get_flow.
Proof. now apply appends_no_pure. Qed.
Lemma appends_no_put_flow bad f : appends_no bad (put_flow f).
Proof. now apply appends_no_pure. Qed.
Lemma appends_no_get_stored_headers bad : appends_no bad get_stored_headers.
Proof. now apply appends_no_pure. Qed.
Lemma appends_no_put_stored_headers bad s :
  appends_no bad (put_stored_headers s).
Proof. now apply appends_no_pure. Qed.

Ltac appends :=
  repeat first
    [ apply appends_no_ret | apply appends_no_raise | apply appends_no_lift
    | apply appends_no_get_flow | apply appends_no_put_flow
    | apply appends_no_get_stored_headers | apply appends_no_put_stored_headers
    | apply appends_no_fault_point
    | apply appends_no_emit; reflexivity
    | apply appends_no_bind | apply appends_no_try_except
    | progress intros
    | match goal with
      | |- appends_no _ (match ?x with _ => _ end) => destruct x
      | |- appends_no _ (if ?x then _ else _) => destruct x
      end ].

Lemma appends_no_reinstate bad env items req_copy resp_copy :
  appends_no bad (reinstate env items req_copy resp_copy).
Proof.
  revert req_copy resp_copy.
  induction items as [|[k v] items IH]; intros; simpl; appends. apply IH.
Qed.

Lemma response_does_not_delegate env :
  appends_no delegation_effect (response env).
Proof.
  unfold response, restore_to_client, report, build_payload, decoded_content,
    set_response_header, the_response, thread_start, log_info, log_error.
  appends; apply appends_no_reinstate.
Qed.

(** ** Classification *)

(** C6, the claim as stated fails: in this request the last [x-source]
    field (indeed every one) holds [connector-service], so a
    last-write-wins snapshot maps [x-source] to the sentinel; yet the
    request hook takes the normal path: nothing is delegated, the
    correlation header is stripped and stored. *)
Lemma repeated_discriminator_takes_the_normal_path :
  let w := Sample.fresh Sample.tagged_twice in
  PyDict.get "x-source"
    (Spec.last_write_wins
       (Request.headers (HTTPFlow.request Sample.tagged_twice)))
  = Some "connector-service"
  /\ delegates (trace (snd (request w))) = false
  /\ stored_headers (snd (request w)) !! "f2"
     = Some [("x-request-id", "abc123")]
  /\ Request.headers (HTTPFlow.request (flow (snd (request w)))) =
       [("x-source", "connector-service"); ("x-source", "connector-service")].
Proof. vm_compute. repeat split. Qed.

(** C6, amended. The request hook always returns, and exactly one path
    runs, chosen by the snapshot [dict(flow.request.headers)], which holds
    one entry per header name, under the spelling of its first field, with
    the values of all fields of that name joined by [", "]. If that
    snapshot maps [x-source] to [connector-service], the flow is paused and
    the connector worker is started with the snapshot, the request and the
    store are as before, no sender is started, and, the flow id having no
    store entry, the response hook later called for this flow (with the
    response the worker installed, after any hooks of other flows) does
    nothing. Otherwise
    the request hook neither pauses the flow nor starts a worker, and no
    response hook ever does. *)
Theorem classification_dispatches_exactly_one_path (env : Env) (w : World) :
  let w' := snd (request w) in
  fst (request w) = Returned tt
  /\ (is_connector (flow w) = true <->
      Headers.first_spelling "x-source"
        (Request.headers (HTTPFlow.request (flow w))) = Some "x-source"
      /\ Headers.get_all "x-source"
           (Request.headers (HTTPFlow.request (flow w))) <> []
      /\ PyStr.join ", "
           (Headers.get_all "x-source"
              (Request.headers (HTTPFlow.request (flow w))))
         = "connector-service")
  /\ if is_connector (flow w) then
       HTTPFlow.request (flow w') = HTTPFlow.request (flow w)
       /\ stored_headers w' = stored_headers w
       /\ HTTPFlow.intercepted (flow w') = true
       /\ (exists before,
             trace w' =
             trace w ++ before
             ++ [ThreadStart
                   (Thread_handle_connector_service (HTTPFlow.id (flow w))
                      (Headers.to_dict
                         (Request.headers (HTTPFlow.request (flow w)))))]
             /\ starts_sender before = false)
       /\ (stored_headers w !! HTTPFlow.id (flow w) = None ->
           forall others w2,
             Forall (foreign (HTTPFlow.id (flow w))) others ->
             HTTPFlow.id (flow w2) = HTTPFlow.id (flow w) ->
             stored_headers w2 = stored_headers (run env others w') ->
             response env w2 = (Returned tt, w2))
     else
       HTTPFlow.intercepted (flow w') = HTTPFlow.intercepted (flow w)
       /\ (exists delta,
             trace w' = trace w ++ delta /\ delegates delta = false)
       /\ (forall w2,
             exists delta,
               trace (snd (response env w2)) = trace w2 ++ delta
               /\ delegates delta = false).
Proof.
  cbv zeta. pose proof (is_connector_spec (flow w)) as Hspec.
  destruct (is_connector (flow w)) eqn:Hc.
  - rewrite (request_connector w Hc). simpl.
    split; [reflexivity|]. split; [exact Hspec|].
    split; [reflexivity|]. split; [reflexivity|]. split; [reflexivity|].
    split.
    + exists (LogInfo (MsgIntercepting (HTTPFlow.id (flow w)))
              :: (if HTTPFlow.intercepted (flow w) then []
                  else [Intercept (HTTPFlow.id (flow w))])).
      split; [reflexivity|]. now destruct (HTTPFlow.intercepted (flow w)).
    + intros Hfresh others w2 Hothers Hid Hstore.
      apply response_absent.
      now rewrite Hid, Hstore, run_store_foreign.
  - destruct (Headers.contains "x-request-id"
                (Request.headers (HTTPFlow.request (flow w)))) eqn:Hx.
    + apply contains_getitem in Hx.
      rewrite (request_normal_with_id w _ Hc Hx). simpl.
      split; [reflexivity|]. split; [exact Hspec|].
      split; [reflexivity|]. split.
      * eexists. split; reflexivity.
      * apply response_does_not_delegate.
    + rewrite (request_normal_without_id w Hc Hx). simpl.
      split; [reflexivity|]. split; [exact Hspec|].
      split; [reflexivity|]. split.
      * exists []. now rewrite app_nil_r.
      * apply response_does_not_delegate.
Qed.

Lemma classification_dispatches_exactly_one_path_witness :
  let paused := snd (request (Sample.fresh Sample.connector_two_accepts)) in
  let answered :=
    snd (_handle_connector_service Sample.timeout_env
           (Headers.to_dict
              (Request.headers (HTTPFlow.request Sample.connector_two_accepts)))
           paused) in
  response Sample.timeout_env answered = (Returned tt, answered).
Proof.
  pose proof (classification_dispatches_exactly_one_path
                Sample.timeout_env
                (Sample.fresh Sample.connector_two_accepts)) as H.
  cbv zeta in H. destruct H as (_ & _ & H).
  change (is_connector (flow (Sample.fresh Sample.connector_two_accepts)))
    with true in H.
  destruct H as (_ & _ & _ & _ & H).
  apply (H eq_refl []).
  - constructor.
  - reflexivity.
  - reflexivity.
Defined.

(** The outbound call of the worker carries the method and the body of
    the request, the fixed target and timeout, and the snapshot it was
    given. *)
Lemma connector_call_carries_method_body_and_snapshot
    (env : Env) (headers : PyDict.t string) (w : World) (data : option string) :
  Request.content (HTTPFlow.request (flow w)) = Returned data ->
  exists rest,
    trace (snd (_handle_connector_service env headers w)) =
    trace w
    ++ HttpCall
         {| OutboundCall.method := Request.method (HTTPFlow.request (flow w));
            OutboundCall.url := FORWARD_URL;
            OutboundCall.headers := headers;
            OutboundCall.data := RawBody data;
            OutboundCall.timeout := TIMEOUT |} :: rest.
Proof.
  intros Hdata. destruct w as [[fid rq rs i] s tr]. simpl in *.
  unfold _handle_connector_service. run_monad. rewrite Hdata. simpl.
  destruct (requests_request env _) as [svc|e1]; simpl.
  - destruct (SvcResponse.headers svc) as [hd|e2]; simpl;
      destruct (fault env SiteMakeResponse) as [e3|]; simpl;
      try destruct (Response.make (codec env) _ _ _) as [made|e4]; simpl;
      rewrite ?make_error_response; simpl;
      destruct i; simpl; rewrite <- ?app_assoc; simpl; eexists; reflexivity.
  - rewrite ?make_error_response; simpl.
    destruct i; simpl; rewrite <- ?app_assoc; simpl; eexists; reflexivity.
Qed.

(** The snapshot has one entry per key, so it cannot hold a header name
    twice. *)
Lemma snapshot_keys_NoDup h : NoDup (PyDict.keys (Headers.to_dict h)).
Proof.
  unfold Headers.to_dict. change (fun d k => _) with (snapshot_step h).
  generalize (Headers.iter h). intros ks.
  assert (H : NoDup (PyDict.keys (@PyDict.empty string)))
    by apply NoDup_nil_2.
  revert H. generalize (@PyDict.empty string).
  induction ks as [|k ks IH]; intros d Hnd; simpl; [exact Hnd|].
  apply IH. unfold snapshot_step.
  destruct (Headers.getitem k h); [now apply NoDup_keys_set | exact Hnd].
Qed.

(** C3, on a connector request with two [accept] fields: the request hook
    starts the worker with a snapshot in which the two fields are one entry
    holding both values joined by [", "]; the outbound call carries the
    method and the body of the request and that snapshot, which is not the
    list of the fields of the request. For every request the snapshot has
    no repeated key. *)
Theorem connector_snapshot_folds_repeated_headers (env : Env) :
  let w := Sample.fresh Sample.connector_two_accepts in
  let original :=
    Request.headers (HTTPFlow.request Sample.connector_two_accepts) in
  let snapshot := [("x-source", "connector-service");
                   ("accept", "text/html, application/json")] in
  exists rest,
    trace (snd (request w)) =
      [LogInfo (MsgIntercepting "f1"); Intercept "f1";
       ThreadStart (Thread_handle_connector_service "f1" snapshot)]
    /\ trace (snd (_handle_connector_service env snapshot (snd (request w)))) =
       trace (snd (request w))
       ++ HttpCall
            {| OutboundCall.method := "GET";
               OutboundCall.url := FORWARD_URL;
               OutboundCall.headers := snapshot;
               OutboundCall.data := RawBody (Some "ping");
               OutboundCall.timeout := TIMEOUT |} :: rest
    /\ Headers.items_multi original =
       [("x-source", "connector-service"); ("accept", "text/html");
        ("accept", "application/json")]
    /\ PyDict.items snapshot <> Headers.items_multi original
    /\ (forall h, NoDup (PyDict.keys (Headers.to_dict h))).
Proof.
  cbv zeta.
  destruct (connector_call_carries_method_body_and_snapshot env
              [("x-source", "connector-service");
               ("accept", "text/html, application/json")]
              (snd (request (Sample.fresh Sample.connector_two_accepts)))
              (Some "ping") eq_refl) as [rest Hrest].
  exists rest. split_and!.
  - reflexivity.
  - exact Hrest.
  - reflexivity.
  - discriminate.
  - apply snapshot_keys_NoDup.
Qed.

(** ** The report *)

Section Report.

Lemma first_fault_none env sites :
  (forall site, fault env site = None) -> first_fault env sites = None.
Proof.
  intros H. induction sites as [|site sites IH]; simpl; [reflexivity|].
  now rewrite H.
Qed.

Lemma reinstate_without_faults env items rq rs w :
  fault env SiteReinstateRequest = None ->
  fault env SiteReinstateResponse = None ->
  reinstate env items rq rs w =
  (Returned
     (Request.with_headers
        (reinstate_all items (Request.headers rq)) rq,
      Response.with_headers
        (reinstate_all items (Response.headers rs)) rs), w).
Proof.
  intros H1 H2. unfold reinstate_all, PyDict.items.
  revert rq rs. induction items as [|[k v] items IH]; intros rq rs; simpl.
  - now destruct rq, rs.
  - unfold fault_point, bind. rewrite H1, H2. simpl. now rewrite IH.
Qed.

Lemma reinstate_spec env items rq rs w :
  reinstate env items rq rs w =
  match
    first_fault env
      (if PyDict.truthy items
       then [SiteReinstateRequest; SiteReinstateResponse] else [])
  with
  | Some e => (Raised e, w)
  | None =>
      (Returned
         (Request.with_headers
            (reinstate_all items (Request.headers rq)) rq,
          Response.with_headers
            (reinstate_all items (Response.headers rs)) rs), w)
  end.
Proof.
  destruct items as [|[k v] items].
  - simpl. unfold reinstate_all. simpl. now destruct rq, rs.
  - cbn [PyDict.truthy first_fault].
    destruct (fault env SiteReinstateRequest) as [e1|] eqn:H1.
    + simpl. unfold fault_point, bind. now rewrite H1.
    + destruct (fault env SiteReinstateResponse) as [e2|] eqn:H2.
      * simpl. unfold fault_point, bind. now rewrite H1, H2.
      * now apply reinstate_without_faults.
Qed.

Lemma decoded_content_text_of c w :
  decoded_content c w =
  (match text_of c with Returned s => Returned s | Raised e => Raised e end, w).
Proof. now destruct c as [[b|]|e]. Qed.

Lemma report_spec env fid removed w r :
  HTTPFlow.response (flow w) = Some r ->
  let rq := HTTPFlow.request (flow w) in
  let req_h := reinstate_all removed (Request.headers rq) in
  let resp_h := reinstate_all removed (Response.headers r) in
  report env fid removed w =
  match construction_failure env removed with
  | Some e => (Raised e, w)
  | None =>
      match text_of (Request.content rq), text_of (Response.content r),
            fault env SiteThreadStart with
      | Returned req_body, Returned resp_body, None =>
          (Returned tt,
           {| flow := flow w; stored_headers := stored_headers w;
              trace :=
                trace w
                ++ [ThreadStart
                      (Thread_send_enriched_async
                         (JDict
                            [("flow_id", JStr fid);
                             ("request",
                              JDict
                                [("method", JStr (Request.method rq));
                                 ("url", JStr (Request.url rq));
                                 ("headers_list",
                                  headers_list_json
                                    (fst (_serialize_headers_preserve req_h)));
                                 ("headers",
                                  headers_dict_json
                                    (snd (_serialize_headers_preserve req_h)));
                                 ("body", JStr req_body)]);
                             ("response",
                              JDict
                                [("status_code",
                                  JInt (Response.status_code r));
                                 ("headers_list",
                                  headers_list_json
                                    (fst (_serialize_headers_preserve resp_h)));
                                 ("headers",
                                  headers_dict_json
                                    (snd (_serialize_headers_preserve resp_h)));
                                 ("body", JStr resp_body)])])
                         fid);
                    LogInfo (MsgScheduled fid)] |})
      | Raised e, _, _ | Returned _, Raised e, _
      | Returned _, Returned _, Some e =>
          (Returned tt,
           {| flow := flow w; stored_headers := stored_headers w;
              trace := trace w ++ [LogError (MsgBuildFailed fid e)] |})
      end
  end.
Proof.
  intros Hr. cbv zeta.
  destruct w as [[id rq rs i] s tr]. simpl in *. subst rs.
  unfold construction_failure, construction_sites.
  cbn [app first_fault].
  unfold report, fault_point, the_response, get_flow, bind.
  destruct (fault env SiteCopyRequest) as [e1|]; [reflexivity|].
  destruct (fault env SiteCopyResponse) as [e2|]; [reflexivity|].
  simpl. rewrite reinstate_spec. unfold PyDict.items.
  destruct (PyDict.truthy removed); cbn [app first_fault];
    [ destruct (fault env SiteReinstateRequest) as [e3|]; [reflexivity|];
      destruct (fault env SiteReinstateResponse) as [e4|]; [reflexivity|]
    | ];
    cbn [Request.headers Request.with_headers Request.copy Response.headers
         Response.with_headers Response.copy];
    unfold Headers.copy;
    (destruct (fault env SiteSerializeRequest) as [e5|]; simpl;
       [reflexivity|]);
    destruct (_serialize_headers_preserve
                (reinstate_all removed (Request.headers rq))) as [rl rd];
    (destruct (fault env SiteSerializeResponse) as [e6|]; simpl;
       [reflexivity|]);
    destruct (_serialize_headers_preserve
                (reinstate_all removed (Response.headers r))) as [sl sd];
    simpl; unfold try_except, build_payload, bind;
    rewrite !decoded_content_text_of;
    cbn [Request.content Response.content Request.with_headers
         Response.with_headers Request.copy Response.copy Request.method
         Request.url Response.status_code];
    (destruct (text_of (Request.content rq)) as [req_body|e7]; simpl;
       [|reflexivity]);
    (destruct (text_of (Response.content r)) as [resp_body|e8]; simpl;
       [|reflexivity]);
    (destruct (fault env SiteThreadStart) as [e9|]; simpl; [reflexivity|]);
    now rewrite <- app_assoc.
Qed.

End Report.

Section Reinstated.

Lemma reinstate_all_keeps_other key (removed : PyDict.t string) h :
  Forall (fun k => Headers.same_name k key = false) (PyDict.keys removed) ->
  Headers.getitem key (reinstate_all removed h) = Headers.getitem key h.
Proof.
  unfold reinstate_all, PyDict.items, PyDict.keys. revert h.
  induction removed as [|[k v] removed IH]; intros h Hall; simpl;
    [reflexivity|].
  simpl in Hall. apply Forall_cons in Hall as [Hk Hall].
  rewrite IH by exact Hall. now apply getitem_setitem_other.
Qed.

Lemma reinstate_all_reads_back (removed : PyDict.t string) h :
  NoDup (map Headers._kconv (PyDict.keys removed)) ->
  reinstated removed (reinstate_all removed h).
Proof.
  unfold reinstated. revert h.
  induction removed as [|[k0 v0] removed IH]; intros h Hnd k v Hget;
    [discriminate|].
  simpl in Hnd. apply NoDup_cons in Hnd as [Hfresh Hnd].
  simpl in Hget.
  change (reinstate_all ((k0, v0) :: removed) h)
    with (reinstate_all removed (Headers.setitem k0 v0 h)).
  destruct (String.eqb_spec k0 k) as [->|Hne].
  - injection Hget as <-.
    rewrite reinstate_all_keeps_other; [apply getitem_setitem_eq|].
    apply Forall_forall. intros k' Hk'.
    unfold Headers.same_name. apply String.eqb_neq. intros Heq.
    apply Hfresh. rewrite <- Heq. apply list_elem_of_In, in_map.
    now apply list_elem_of_In.
  - now apply IH.
Qed.

End Reinstated.

(** C5, the claim as stated fails: with the store entry of the flow
    present, a failure of the request copy (step 3) ends the response hook
    with that exception; nothing is logged. *)
Lemma copy_failure_escapes_the_response_hook :
  let result := response Sample.copy_fails_env Sample.awaiting_enrichment in
  fst result = Raised "copy failed"
  /\ logs_build_failure (trace (snd result)) = false
  /\ trace (snd result) = [].
Proof. vm_compute. repeat split. Qed.

(** C5, amended. For an exchange whose store entry is taken, the flow
    after the response hook is the flow with the restored response and the
    entry is gone, whatever happens while the report is built and in every
    environment. A failure of the copies, of the reinstatement loop or of
    the serialization (steps 3-5) ends the hook with that exception and
    nothing is logged. Otherwise the hook returns: a failure of payload
    assembly or of the thread start is logged as a build failure and
    nothing is sent, and without such a failure the sender thread is
    started and the scheduling is logged. *)
Theorem assembly_failures_are_logged_and_the_client_response_is_kept
    (env : Env) (w : World) (removed : PyDict.t string) (r : Response.t) :
  stored_headers w !! HTTPFlow.id (flow w) = Some removed ->
  HTTPFlow.response (flow w) = Some r ->
  let result := response env w in
  let fid := HTTPFlow.id (flow w) in
  flow (snd result) =
    HTTPFlow.with_response (Some (restored removed r)) (flow w)
  /\ stored_headers (snd result) = delete fid (stored_headers w)
  /\ match construction_failure env removed with
     | Some e => fst result = Raised e /\ trace (snd result) = trace w
     | None =>
         fst result = Returned tt
         /\ match assembly_failure env (HTTPFlow.request (flow w)) r with
            | Some e =>
                trace (snd result) =
                trace w ++ [LogError (MsgBuildFailed fid e)]
            | None =>
                exists payload,
                  trace (snd result) =
                  trace w
                  ++ [ThreadStart (Thread_send_enriched_async payload fid);
                      LogInfo (MsgScheduled fid)]
            end
     end.
Proof.
  intros Hs Hr. cbv zeta.
  split; [apply (response_present_flow env w removed r Hs Hr)|].
  split; [apply (response_present_flow env w removed r Hs Hr)|].
  rewrite (response_present env w removed r Hs Hr).
  erewrite report_spec by reflexivity.
  destruct (construction_failure env removed) as [e0|]; [now split|].
  unfold assembly_failure. simpl.
  destruct (text_of (Request.content (HTTPFlow.request (flow w))))
    as [req_body|e1]; [|now split].
  destruct (text_of (Response.content r)) as [resp_body|e2]; [|now split].
  destruct (fault env SiteThreadStart) as [e3|]; [now split|].
  split; [reflexivity|]. eexists. reflexivity.
Qed.

Lemma assembly_failures_are_logged_and_the_client_response_is_kept_witness :
  let result := response Sample.timeout_env Sample.unreadable_response in
  fst result = Returned tt
  /\ trace (snd result) =
     [LogError (MsgBuildFailed "f3" "Invalid content encoding")].
Proof.
  destruct (assembly_failures_are_logged_and_the_client_response_is_kept
              Sample.timeout_env Sample.unreadable_response
              [("x-request-id", "abc123")]
              {| Response.status_code := 200;
                 Response.headers := [("content-encoding", "gzip")];
                 Response.content := Raised "Invalid content encoding" |})
    as (_ & _ & H).
  - reflexivity.
  - reflexivity.
  - exact H.
Defined.

(** C7, the claim as stated fails: a normal-path exchange is enriched,
    its entry is taken and its response gets [x-state] and the correlation
    header back, yet no report payload is built, because the body of the
    response cannot be read; the failure is logged and no sender is
    started. No library call is made to fail here. *)
Lemma unreadable_body_builds_no_payload :
  let w := Sample.unreadable_response in
  let result := response Sample.timeout_env w in
  stored_headers w !! HTTPFlow.id (flow w) = Some [("x-request-id", "abc123")]
  /\ is_connector (flow w) = false
  /\ (forall site, fault Sample.timeout_env site = None)
  /\ fst result = Returned tt
  /\ (exists r,
        HTTPFlow.response (flow (snd result)) = Some r
        /\ Headers.getitem "x-state" (Response.headers r) = Some "response"
        /\ Headers.getitem "x-request-id" (Response.headers r)
           = Some "abc123")
  /\ starts_sender (trace (snd result)) = false
  /\ trace (snd result) =
     [LogError (MsgBuildFailed "f3" "Invalid content encoding")].
Proof.
  cbv zeta. split_and!; try reflexivity.
  eexists. split_and!; reflexivity.
Qed.

(** C7, amended. For an exchange whose store entry is taken, in every
    environment: when steps 3-5 do not fail, both bodies are present and
    can be read, and the sender thread can be started, the response hook
    returns and starts the sender with the payload [{flow_id, request:
    {method, url, headers_list, headers, body}, response: {status_code,
    headers_list, headers, body}}], whose header lists and mappings are the
    codec's output on the headers of the copies after the reinstatement
    loop and whose bodies are the bytes decoded with replacement; in every
    other case no sender is started, so no report is built. When the
    removed names differ pairwise (as for the one-key entries of the
    store), every removed header reads back from both copies after the
    loop. Decoding with replacement is defined on every byte string and
    yields well-formed UTF-8, so the text decoding itself never fails the
    report. *)
Theorem report_payload_has_the_report_shape_unless_a_step_fails
    (env : Env) (w : World) (removed : PyDict.t string) (r : Response.t) :
  stored_headers w !! HTTPFlow.id (flow w) = Some removed ->
  HTTPFlow.response (flow w) = Some r ->
  let fid := HTTPFlow.id (flow w) in
  let rq := HTTPFlow.request (flow w) in
  let req_h := reinstate_all removed (Request.headers rq) in
  let resp_h := reinstate_all removed (Response.headers (restored removed r)) in
  let result := response env w in
  match construction_failure env removed, assembly_failure env rq r with
  | None, None =>
      exists req_body resp_body,
        Request.content rq = Returned (Some req_body)
        /\ Response.content r = Returned (Some resp_body)
        /\ fst result = Returned tt
        /\ trace (snd result) =
           trace w
           ++ [ThreadStart
                 (Thread_send_enriched_async
                    (JDict
                       [("flow_id", JStr fid);
                        ("request",
                         JDict
                           [("method", JStr (Request.method rq));
                            ("url", JStr (Request.url rq));
                            ("headers_list",
                             headers_list_json (Headers.items_multi req_h));
                            ("headers",
                             headers_dict_json
                               (snd (_serialize_headers_preserve req_h)));
                            ("body", JStr (Utf8.decode_replace req_body))]);
                        ("response",
                         JDict
                           [("status_code", JInt (Response.status_code r));
                            ("headers_list",
                             headers_list_json (Headers.items_multi resp_h));
                            ("headers",
                             headers_dict_json
                               (snd (_serialize_headers_preserve resp_h)));
                            ("body", JStr (Utf8.decode_replace resp_body))])])
                    fid);
               LogInfo (MsgScheduled fid)]
  | _, _ =>
      exists delta,
        trace (snd result) = trace w ++ delta
        /\ starts_sender delta = false
  end
  /\ (NoDup (map Headers._kconv (PyDict.keys removed)) ->
      reinstated removed req_h /\ reinstated removed resp_h)
  /\ (forall body : string,
        Utf8.well_formed (Utf8.decode_replace body) = true).
Proof.
  intros Hs Hr. cbv zeta.
  split_and!.
  - rewrite (response_present env w removed r Hs Hr).
    erewrite report_spec by reflexivity.
    destruct (construction_failure env removed) as [e0|].
    { exists []. now rewrite app_nil_r. }
    unfold assembly_failure, text_of. simpl.
    destruct (Request.content (HTTPFlow.request (flow w)))
      as [[req_body|]|e1]; simpl;
      [ | exists [LogError
                    (MsgBuildFailed (HTTPFlow.id (flow w))
                       (attribute_error "decode"))]; now split
        | exists [LogError (MsgBuildFailed (HTTPFlow.id (flow w)) e1)];
          now split ].
    destruct (Response.content r) as [[resp_body|]|e2]; simpl;
      [ | exists [LogError
                    (MsgBuildFailed (HTTPFlow.id (flow w))
                       (attribute_error "decode"))]; now split
        | exists [LogError (MsgBuildFailed (HTTPFlow.id (flow w)) e2)];
          now split ].
    destruct (fault env SiteThreadStart) as [e3|]; simpl;
      [ exists [LogError (MsgBuildFailed (HTTPFlow.id (flow w)) e3)];
        now split | ].
    exists req_body, resp_body. rewrite !serialize_unfold. simpl.
    now split_and!.
  - intros Hnd. split; now apply reinstate_all_reads_back.
  - intros body. apply decode_replace_well_formed.
Qed.

Lemma report_payload_has_the_report_shape_unless_a_step_fails_witness :
  let result := response Sample.timeout_env Sample.awaiting_enrichment in
  (exists req_body resp_body,
     Request.content (HTTPFlow.request (flow Sample.awaiting_enrichment))
     = Returned (Some req_body)
     /\ Response.content (Sample.ok_response [("server", "origin")])
        = Returned (Some resp_body)
     /\ fst result = Returned tt
     /\ starts_sender (trace (snd result)) = true)
  /\ reinstated [("x-request-id", "abc123")]
       (reinstate_all [("x-request-id", "abc123")] [("accept", "text/html")]).
Proof.
  cbv zeta.
  destruct (report_payload_has_the_report_shape_unless_a_step_fails
              Sample.timeout_env Sample.awaiting_enrichment
              [("x-request-id", "abc123")]
              (Sample.ok_response [("server", "origin")]))
    as (H1 & H2 & _).
  - reflexivity.
  - reflexivity.
  - split; [|apply H2, NoDup_singleton].
    change (construction_failure _ _) with (@None exn) in H1.
    change (assembly_failure _ _ _) with (@None exn) in H1.
    destruct H1 as (req_body & resp_body & Hq & Hp & Hret & Htrace).
    exists req_body, resp_body. split_and!; try assumption.
    rewrite Htrace. reflexivity.
Defined.

(* ===================================================================== *)
(** * Further properties *)
(* ===================================================================== *)

(** ** The sender *)

(** X1. The sender never raises, whatever the forward target does, and
    changes neither the flow nor the store. It makes exactly one call: a
    [POST] to [FORWARD_URL] with [Content-Type: application/json], the
    payload as data and the fixed timeout; it then logs the success, or
    the failure with the description of the exception. *)
Theorem send_enriched_async_posts_once_and_never_raises
    (env : Env) (payload : json) (fid : string) (w : World) :
  let result := _send_enriched_async env payload fid w in
  fst result = Returned tt
  /\ flow (snd result) = flow w
  /\ stored_headers (snd result) = stored_headers w
  /\ exists logged,
       trace (snd result) =
         trace w ++ [HttpCall (report_call payload); logged]
       /\ logged =
          match requests_request env (report_call payload) with
          | Returned _ => LogInfo (MsgSent fid)
          | Raised e => LogError (MsgSendFailed fid e)
          end.
Proof.
  destruct w as [f s tr]. unfold _send_enriched_async, report_call.
  run_monad.
  destruct (requests_request env _) as [svc|e]; simpl;
    (split_and!; try reflexivity; eexists; split; [|reflexivity];
     now rewrite <- app_assoc).
Qed.

(** ** The connector worker, beyond the failure case *)

(** The worker, case by case. *)
Lemma worker_cases (env : Env) (headers : PyDict.t string) (w : World) :
  let f := flow w in
  let finish (r : Response.t) (between : list effect) :=
    (Returned tt,
     {| flow :=
          HTTPFlow.with_intercepted false
            (HTTPFlow.with_response (Some r) f);
        stored_headers := stored_headers w;
        trace :=
          trace w ++ between
          ++ (if HTTPFlow.intercepted f
              then [Resume (HTTPFlow.id f)] else []) |}) in
  let failed (e : exn) := LogError (MsgConnectorError (HTTPFlow.id f) e) in
  _handle_connector_service env headers w =
  match Request.content (HTTPFlow.request f) with
  | Raised e => finish (error_response e) [failed e]
  | Returned data =>
      let call := HttpCall (connector_call f headers data) in
      match requests_request env (connector_call f headers data) with
      | Raised e => finish (error_response e) [call; failed e]
      | Returned svc =>
          match fault env SiteMakeResponse with
          | Some e => finish (error_response e) [call; failed e]
          | None =>
              match
                Response.make (codec env) (SvcResponse.status_code svc)
                  (SvcResponse.content svc) (service_headers svc)
              with
              | Raised e => finish (error_response e) [call; failed e]
              | Returned r =>
                  finish r
                    [call;
                     LogInfo
                       (MsgDelivered (HTTPFlow.id f)
                          (SvcResponse.status_code svc))]
              end
          end
      end
  end.
Proof.
  destruct w as [[fid rq rs i] s tr]. cbv zeta.
  unfold _handle_connector_service, connector_call, service_headers,
    error_response.
  run_monad.
  destruct (Request.content rq) as [data|e0]; simpl.
  - destruct (requests_request env _) as [svc|e1]; simpl.
    + destruct (SvcResponse.headers svc) as [hd|e2]; simpl;
        destruct (fault env SiteMakeResponse) as [e3|]; simpl;
        try destruct (Response.make (codec env) _ _ _) as [made|e4]; simpl;
        rewrite ?make_error_response; simpl;
        destruct i; simpl; rewrite <- ?app_assoc; reflexivity.
    + rewrite ?make_error_response; simpl.
      destruct i; simpl; rewrite <- ?app_assoc; reflexivity.
  - rewrite ?make_error_response; simpl.
    destruct i; simpl; rewrite <- ?app_assoc; simpl; rewrite ?app_nil_r;
      reflexivity.
Qed.

(** The content setter of [http.Response.make] leaves every header field
    alone that is neither the content length nor the content encoding. *)
Lemma make_keeps_other_fields (c : Codec.t) (status : Z) (content : string)
    (d : PyDict.t string) (r : Response.t) (key : string) :
  Response.make c status content d = Returned r ->
  Headers.same_name "content-length" key = false ->
  Headers.same_name "content-encoding" key = false ->
  Headers.get_all key (Response.headers r) =
  Headers.get_all key (PyDict.items d).
Proof.
  unfold Response.make, Response.set_content. intros Hmake Hlen Henc.
  assert (Hlength :
    forall h raw,
      Headers.get_all key
        (if Headers.contains "transfer-encoding" h then h
         else Headers.setitem "content-length"
                (str_of_nat (String.length raw)) h)
      = Headers.get_all key h).
  { intros h raw. destruct (Headers.contains "transfer-encoding" h);
      [reflexivity|]. unfold Headers.setitem.
    now apply get_all_set_all_other. }
  destruct (encoding_encode c content _) as [raw| |e].
  - injection Hmake as <-. simpl. apply Hlength.
  - unfold Headers.delitem in Hmake.
    destruct (Headers.contains "content-encoding" (PyDict.items d));
      [|discriminate].
    injection Hmake as <-. simpl. rewrite Hlength.
    now apply get_all_without_other.
  - discriminate.
Qed.

(** X2. When the request body can be read, the outbound call returns and
    building the response does not fail, the worker installs the response
    that [http.Response.make] builds from the status code, the content and
    the headers of the answer, or from the single header [Content-Type:
    application/octet-stream] when those headers cannot be read; it makes
    the one call, logs the delivery and resumes a paused flow. The
    installed response has the status code of the answer, and its header
    fields are those passed in, apart from the content length and the
    content encoding. When the headers passed in name no content encoding,
    which includes the fallback header, the body is the content of the
    answer, and the content length is rewritten in place, or appended, to
    the length of that content, unless a transfer encoding is declared. *)
Theorem connector_success_installs_the_service_response
    (env : Env) (headers : PyDict.t string) (w : World)
    (data : option string) (svc : SvcResponse.t) (r : Response.t) :
  Request.content (HTTPFlow.request (flow w)) = Returned data ->
  requests_request env (connector_call (flow w) headers data) = Returned svc ->
  fault env SiteMakeResponse = None ->
  Response.make (codec env) (SvcResponse.status_code svc)
    (SvcResponse.content svc) (service_headers svc) = Returned r ->
  let result := _handle_connector_service env headers w in
  let fields := PyDict.items (service_headers svc) in
  fst result = Returned tt
  /\ HTTPFlow.response (flow (snd result)) = Some r
  /\ Response.status_code r = SvcResponse.status_code svc
  /\ (forall key,
        Headers.same_name "content-length" key = false ->
        Headers.same_name "content-encoding" key = false ->
        Headers.get_all key (Response.headers r) =
        Headers.get_all key fields)
  /\ (Headers.getitem "content-encoding" fields = None ->
      Response.content r = Returned (Some (SvcResponse.content svc))
      /\ Response.headers r =
         if Headers.contains "transfer-encoding" fields then fields
         else Headers.setitem "content-length"
                (str_of_nat (String.length (SvcResponse.content svc)))
                fields)
  /\ (forall e,
        SvcResponse.headers svc = Raised e ->
        Response.content r = Returned (Some (SvcResponse.content svc))
        /\ Response.headers r =
           [("Content-Type", "application/octet-stream");
            ("content-length",
             str_of_nat (String.length (SvcResponse.content svc)))])
  /\ trace (snd result) =
     trace w
     ++ [HttpCall (connector_call (flow w) headers data);
         LogInfo
           (MsgDelivered (HTTPFlow.id (flow w))
              (SvcResponse.status_code svc))]
     ++ (if HTTPFlow.intercepted (flow w)
         then [Resume (HTTPFlow.id (flow w))] else []).
Proof.
  intros Hdata Hcall Hfault Hmake. cbv zeta.
  pose proof (worker_cases env headers w) as H. cbv zeta in H.
  rewrite Hdata, Hcall, Hfault, Hmake in H. rewrite H. simpl.
  split_and!; try reflexivity.
  - unfold Response.make in Hmake.
    destruct (Response.set_content _ _ _) as [[h raw]|e]; [|discriminate].
    now injection Hmake as <-.
  - intros key. now apply make_keeps_other_fields with (1 := Hmake).
  - intros Hce.
    rewrite (make_without_content_encoding _ _ _ _ Hce) in Hmake.
    now injection Hmake as <-.
  - intros e He. unfold service_headers in Hmake. rewrite He in Hmake.
    rewrite make_without_content_encoding in Hmake by reflexivity.
    now injection Hmake as <-.
Qed.

Lemma connector_success_installs_the_service_response_witness :
  let headers :=
    Headers.to_dict
      (Request.headers (HTTPFlow.request Sample.connector_two_accepts)) in
  let paused := snd (request (Sample.fresh Sample.connector_two_accepts)) in
  HTTPFlow.response
    (flow
       (snd (_handle_connector_service Scenario.stale_length_env headers
               paused))) =
  Some
    {| Response.status_code := 200;
       Response.headers :=
         [("Content-Type", "text/plain"); ("Content-Length", "2")];
       Response.content := Returned (Some "ok") |}
  /\ HTTPFlow.response
       (flow
          (snd (_handle_connector_service Scenario.unreadable_headers_env
                  headers paused))) =
     Some
       {| Response.status_code := 204;
          Response.headers :=
            [("Content-Type", "application/octet-stream");
             ("content-length", "0")];
          Response.content := Returned (Some "") |}.
Proof.
  cbv zeta. split.
  - destruct (connector_success_installs_the_service_response
                Scenario.stale_length_env
                (Headers.to_dict
                   (Request.headers
                      (HTTPFlow.request Sample.connector_two_accepts)))
                (snd (request (Sample.fresh Sample.connector_two_accepts)))
                (Some "ping")
                {| SvcResponse.status_code := 200;
                   SvcResponse.content := "ok";
                   SvcResponse.headers :=
                     Returned
                       [("Content-Type", "text/plain");
                        ("Content-Length", "999")] |}
                {| Response.status_code := 200;
                   Response.headers :=
                     [("Content-Type", "text/plain");
                      ("Content-Length", "2")];
                   Response.content := Returned (Some "ok") |})
      as (_ & H & _); [reflexivity | reflexivity | reflexivity | reflexivity
                      | exact H].
  - destruct (connector_success_installs_the_service_response
                Scenario.unreadable_headers_env
                (Headers.to_dict
                   (Request.headers
                      (HTTPFlow.request Sample.connector_two_accepts)))
                (snd (request (Sample.fresh Sample.connector_two_accepts)))
                (Some "ping")
                {| SvcResponse.status_code := 204;
                   SvcResponse.content := "";
                   SvcResponse.headers := Raised "bad header" |}
                {| Response.status_code := 204;
                   Response.headers :=
                     [("Content-Type", "application/octet-stream");
                      ("content-length", "0")];
                   Response.content := Returned (Some "") |})
      as (_ & H & _); [reflexivity | reflexivity | reflexivity | reflexivity
                      | exact H].
Defined.

Lemma http_calls_app tr1 tr2 :
  http_calls (tr1 ++ tr2) = http_calls tr1 ++ http_calls tr2.
Proof.
  induction tr1 as [|e tr1 IH]; simpl; [reflexivity|].
  destruct e; simpl; now rewrite ?IH.
Qed.

(** X3. In every environment the connector worker leaves the id and the
    request of the flow and the store as they are and leaves a response on
    the flow; it only appends effects, starts no thread, and makes exactly
    one outbound call when the request body can be read and none when it
    cannot. *)
Theorem connector_worker_calls_at_most_once_and_keeps_the_request
    (env : Env) (headers : PyDict.t string) (w : World) :
  let w' := snd (_handle_connector_service env headers w) in
  HTTPFlow.id (flow w') = HTTPFlow.id (flow w)
  /\ HTTPFlow.request (flow w') = HTTPFlow.request (flow w)
  /\ stored_headers w' = stored_headers w
  /\ is_Some (HTTPFlow.response (flow w'))
  /\ exists delta,
       trace w' = trace w ++ delta
       /\ http_calls delta =
          match Request.content (HTTPFlow.request (flow w)) with
          | Returned data => [connector_call (flow w) headers data]
          | Raised _ => []
          end
       /\ existsb
            (fun e => match e with ThreadStart _ => true | _ => false end)
            delta = false.
Proof.
  cbv zeta. pose proof (worker_cases env headers w) as H. cbv zeta in H.
  rewrite H. clear H.
  destruct (Request.content (HTTPFlow.request (flow w))) as [data|e0].
  - destruct (requests_request env _) as [svc|e1];
      [destruct (fault env SiteMakeResponse) as [e2|];
       [|destruct (Response.make (codec env) _ _ _) as [made|e3]]|]; simpl;
      (split_and!; try reflexivity; [eexists; reflexivity|];
       eexists; split; [reflexivity|];
       now destruct (HTTPFlow.intercepted (flow w))).
  - simpl. split_and!; try reflexivity; [eexists; reflexivity|].
    eexists; split; [reflexivity|].
    now destruct (HTTPFlow.intercepted (flow w)).
Qed.

(** X4. For a connector request on a flow that is not paused, the request
    hook pauses the flow without giving it a response; after the worker
    the flow is not paused, has a response and its request and the store
    are as before; and the effects of the two are exactly, in this order:
    the interception log line, the pause, the start of the worker, the
    one outbound call when the request body can be read and none when it
    cannot, one log line, and last the resume. The log line is the error
    line for the exception the [try] body of the worker ended with, and
    otherwise the delivery line with the status code of the answer. *)
Theorem connector_exchange_is_paused_then_answered_then_resumed
    (env : Env) (w : World) :
  is_connector (flow w) = true ->
  HTTPFlow.intercepted (flow w) = false ->
  let fid := HTTPFlow.id (flow w) in
  let headers :=
    Headers.to_dict (Request.headers (HTTPFlow.request (flow w))) in
  let paused := snd (request w) in
  let finished := snd (_handle_connector_service env headers paused) in
  HTTPFlow.intercepted (flow paused) = true
  /\ HTTPFlow.response (flow paused) = HTTPFlow.response (flow w)
  /\ HTTPFlow.intercepted (flow finished) = false
  /\ is_Some (HTTPFlow.response (flow finished))
  /\ HTTPFlow.request (flow finished) = HTTPFlow.request (flow w)
  /\ stored_headers finished = stored_headers w
  /\ exists calls logged,
       trace finished =
       trace w
       ++ [LogInfo (MsgIntercepting fid); Intercept fid;
           ThreadStart (Thread_handle_connector_service fid headers)]
       ++ (calls ++ [logged]) ++ [Resume fid]
       /\ calls =
          match Request.content (HTTPFlow.request (flow w)) with
          | Returned data => [HttpCall (connector_call (flow w) headers data)]
          | Raised _ => []
          end
       /\ match connector_failure env headers (flow w) with
          | Some e => logged = LogError (MsgConnectorError fid e)
          | None =>
              exists data svc,
                Request.content (HTTPFlow.request (flow w)) = Returned data
                /\ requests_request env (connector_call (flow w) headers data)
                   = Returned svc
                /\ logged =
                   LogInfo (MsgDelivered fid (SvcResponse.status_code svc))
          end
       /\ delegates (calls ++ [logged]) = false
       /\ length (http_calls (calls ++ [logged])) <= 1.
Proof.
  intros Hc Hi. cbv zeta.
  rewrite (request_connector w Hc). rewrite Hi. simpl snd.
  set (paused := {| flow := _ |}).
  pose proof (worker_cases env
                (Headers.to_dict (Request.headers (HTTPFlow.request (flow w))))
                paused) as H.
  cbv zeta in H. rewrite H. clear H. subst paused.
  unfold connector_failure, connector_call. simpl.
  destruct (Request.content (HTTPFlow.request (flow w))) as [data|e0].
  - destruct (requests_request env _) as [svc|e1] eqn:Hcall;
      [destruct (fault env SiteMakeResponse) as [e2|];
       [|destruct (Response.make (codec env) _ _ _) as [made|e3]]|]; simpl;
      (split_and!; try reflexivity; [eexists; reflexivity|];
       eexists _, _; split_and!; cycle 1;
       [ reflexivity
       | first [ reflexivity
               | exists data, svc; split_and!; [reflexivity|exact Hcall|] ];
         reflexivity
       | reflexivity
       | simpl; lia
       | rewrite <- ?app_assoc; reflexivity ]).
  - simpl. split_and!; try reflexivity; [eexists; reflexivity|].
    eexists _, _; split_and!; cycle 1;
      [ reflexivity | reflexivity | reflexivity | simpl; lia
      | rewrite <- ?app_assoc; reflexivity ].
Qed.

Lemma connector_exchange_is_paused_then_answered_then_resumed_witness :
  let w := Sample.fresh Sample.connector_two_accepts in
  let headers :=
    Headers.to_dict (Request.headers (HTTPFlow.request (flow w))) in
  let finished :=
    snd (_handle_connector_service Scenario.answering_env headers
           (snd (request w))) in
  HTTPFlow.intercepted (flow finished) = false
  /\ is_Some (HTTPFlow.response (flow finished))
  /\ trace finished =
     [LogInfo (MsgIntercepting "f1"); Intercept "f1";
      ThreadStart (Thread_handle_connector_service "f1" headers);
      HttpCall (connector_call (flow w) headers (Some "ping"));
      LogInfo (MsgDelivered "f1" 200); Resume "f1"].
Proof.
  cbv zeta.
  destruct (connector_exchange_is_paused_then_answered_then_resumed
              Scenario.answering_env
              (Sample.fresh Sample.connector_two_accepts))
    as (_ & _ & H1 & H2 & _ & _ & calls & logged & Htrace & Hcalls
        & Hlogged & _).
  - reflexivity.
  - reflexivity.
  - split_and!; [exact H1 | exact H2 |].
    change (connector_failure _ _ _) with (@None exn) in Hlogged.
    destruct Hlogged as (data & svc & Hdata & Hsvc & ->).
    injection Hsvc as <-. subst calls. exact Htrace.
Defined.

(** ** The request hook on the normal path *)

Lemma without_absent key h :
  Headers.contains key h = false -> Headers.without key h = h.
Proof.
  unfold Headers.contains, Headers.get_all, Headers.without.
  induction h as [|[k v] h IH]; simpl; [reflexivity|].
  destruct (Headers.same_name k key); simpl; [discriminate|].
  intros H. now rewrite IH.
Qed.

(** X5. On the normal path the request hook returns and changes nothing
    of the flow but the header fields of the request: the fields named
    [x-request-id] in any letter case are all removed, the other fields
    stay in their order, and method, URL, body, id, response and pause state
    are as before. The store is unchanged when there is no such field, and
    otherwise gets, under the id of the flow, the one-key entry holding the
    values of all these fields joined by [", "]. *)
Theorem request_hook_only_strips_the_correlation_fields (w : World) :
  is_connector (flow w) = false ->
  let h := Request.headers (HTTPFlow.request (flow w)) in
  let w' := snd (request w) in
  let rq' := HTTPFlow.request (flow w') in
  fst (request w) = Returned tt
  /\ Request.headers rq' =
     List.filter
       (fun field => negb (Headers.same_name (fst field) "x-request-id")) h
  /\ Request.method rq' = Request.method (HTTPFlow.request (flow w))
  /\ Request.url rq' = Request.url (HTTPFlow.request (flow w))
  /\ Request.content rq' = Request.content (HTTPFlow.request (flow w))
  /\ HTTPFlow.id (flow w') = HTTPFlow.id (flow w)
  /\ HTTPFlow.response (flow w') = HTTPFlow.response (flow w)
  /\ HTTPFlow.intercepted (flow w') = HTTPFlow.intercepted (flow w)
  /\ stored_headers w' =
     match Headers.get_all "x-request-id" h with
     | [] => stored_headers w
     | values =>
         <[HTTPFlow.id (flow w) :=
             [("x-request-id", PyStr.join ", " values)]]> (stored_headers w)
     end.
Proof.
  intros Hc. cbv zeta.
  destruct (Headers.contains "x-request-id"
              (Request.headers (HTTPFlow.request (flow w)))) eqn:Hx.
  - pose proof (contains_getitem _ _ Hx) as HR.
    rewrite (request_normal_with_id w _ Hc HR). simpl.
    unfold Headers.contains in Hx.
    destruct (Headers.get_all "x-request-id"
                (Request.headers (HTTPFlow.request (flow w))));
      [discriminate|].
    now split_and!.
  - rewrite (request_normal_without_id w Hc Hx). simpl.
    fold (Headers.without "x-request-id"
            (Request.headers (HTTPFlow.request (flow w)))).
    rewrite (without_absent _ _ Hx). unfold Headers.contains in Hx.
    destruct (Headers.get_all "x-request-id"
                (Request.headers (HTTPFlow.request (flow w))));
      [|discriminate].
    now split_and!.
Qed.

Lemma request_hook_only_strips_the_correlation_fields_witness :
  let w := Sample.fresh Scenario.two_correlation_fields in
  Request.headers (HTTPFlow.request (flow (snd (request w)))) =
    [("accept", "text/html"); ("host", "origin")]
  /\ stored_headers (snd (request w)) =
     <["f7" := [("x-request-id", "abc, def")]]> ∅.
Proof.
  cbv zeta.
  destruct (request_hook_only_strips_the_correlation_fields
              (Sample.fresh Scenario.two_correlation_fields))
    as (_ & H1 & _ & _ & _ & _ & _ & _ & H2).
  - reflexivity.
  - split; [exact H1 | exact H2].
Defined.

(** ** The response hook on the response *)

Lemma response_flow_id env w :
  HTTPFlow.id (flow (snd (response env w))) = HTTPFlow.id (flow w).
Proof.
  destruct (stored_headers w !! HTTPFlow.id (flow w)) as [removed|] eqn:Hs.
  - destruct (HTTPFlow.response (flow w)) as [r|] eqn:Hr.
    + now destruct (response_present_flow env w removed r Hs Hr) as [-> _].
    + unfold response, bind at 1 2, get_flow, get_stored_headers,
        take_if_present. simpl. rewrite Hs.
      unfold bind at 1, put_stored_headers. simpl.
      unfold bind at 1, restore_to_client, bind at 1.
      destruct (PyDict.get "x-request-id" removed);
        unfold set_response_header, the_response, bind, get_flow; simpl;
        now rewrite Hr.
  - now rewrite (response_absent env w Hs).
Qed.

(** X7. After the response hook has run, in any environment, the store
    has no entry for its flow and the entries of all other ids are as
    before; a further response hook on the resulting world returns and
    changes nothing, so an exchange is enriched at most once. *)
Theorem response_hook_consumes_the_entry_and_a_second_call_does_nothing
    (env env' : Env) (w : World) :
  let w' := snd (response env w) in
  stored_headers w' !! HTTPFlow.id (flow w) = None
  /\ (forall fid, fid <> HTTPFlow.id (flow w) ->
        stored_headers w' !! fid = stored_headers w !! fid)
  /\ response env' w' = (Returned tt, w').
Proof.
  cbv zeta.
  assert (Hnone : stored_headers (snd (response env w))
                  !! HTTPFlow.id (flow w) = None).
  { rewrite response_store. unfold take_if_present.
    destruct (stored_headers w !! HTTPFlow.id (flow w)) eqn:Hs; simpl;
      [apply lookup_delete_eq | exact Hs]. }
  split_and!.
  - exact Hnone.
  - intros fid Hne. rewrite response_store. unfold take_if_present.
    destruct (stored_headers w !! HTTPFlow.id (flow w)); simpl;
      [|reflexivity].
    now rewrite lookup_delete_ne.
  - apply response_absent. now rewrite response_flow_id.
Qed.

Lemma response_hook_consumes_the_entry_and_a_second_call_does_nothing_witness :
  let w :=
    {| flow := flow Sample.awaiting_enrichment;
       stored_headers :=
         <["f9" := [("x-request-id", "other")]]>
           (stored_headers Sample.awaiting_enrichment);
       trace := [] |} in
  stored_headers (snd (response Sample.timeout_env w)) !! "f9"
  = Some [("x-request-id", "other")].
Proof.
  cbv zeta.
  destruct (response_hook_consumes_the_entry_and_a_second_call_does_nothing
              Sample.timeout_env Sample.timeout_env
              {| flow := flow Sample.awaiting_enrichment;
                 stored_headers :=
                   <["f9" := [("x-request-id", "other")]]>
                     (stored_headers Sample.awaiting_enrichment);
                 trace := [] |}) as (_ & H & _).
  etransitivity; [apply (H "f9"); discriminate | reflexivity].
Defined.

Lemma without_set_all_same key values h :
  Headers.without key (Headers.set_all key values h) = Headers.without key h.
Proof.
  unfold Headers.without. revert values.
  induction h as [|[k v] h IH]; intros values; simpl.
  - induction values as [|x values IHv]; simpl; [reflexivity|].
    now rewrite same_name_refl.
  - destruct (Headers.same_name k key) eqn:E; simpl.
    + destruct values as [|x values]; simpl; [apply IH|].
      rewrite E. simpl. apply IH.
    + rewrite E. simpl. now rewrite IH.
Qed.

Lemma without_set_all_other key key' values h :
  Headers.same_name key key' = false ->
  Headers.without key' (Headers.set_all key values h) =
  Headers.set_all key values (Headers.without key' h).
Proof.
  intros Hne. unfold Headers.without. revert values.
  induction h as [|[k v] h IH]; intros values; simpl.
  - induction values as [|x values IHv]; simpl; [reflexivity|].
    rewrite Hne. simpl. now rewrite IHv.
  - destruct (Headers.same_name k key) eqn:E.
    + rewrite (same_name_trans_false _ _ _ E Hne). simpl. rewrite E.
      destruct values as [|x values]; simpl; [apply IH|].
      rewrite (same_name_trans_false _ _ _ E Hne). simpl. now rewrite IH.
    + simpl. destruct (Headers.same_name k key'); simpl; [apply IH|].
      rewrite E. now rewrite IH.
Qed.

(** X6. When the response hook takes an entry, in every environment it
    leaves the request and the pause state as they are, and of the response
    it keeps status code and content and all header fields not named
    [x-state] or [x-request-id], in their order. The response then has
    exactly one [x-state] value, [response], and, when the entry holds
    [x-request-id], exactly one [x-request-id] value, the stored one,
    whatever fields of these names the origin sent. *)
Theorem response_hook_rewrites_only_the_two_enrichment_headers
    (env : Env) (w : World) (removed : PyDict.t string) (r : Response.t) :
  stored_headers w !! HTTPFlow.id (flow w) = Some removed ->
  HTTPFlow.response (flow w) = Some r ->
  let w' := snd (response env w) in
  HTTPFlow.request (flow w') = HTTPFlow.request (flow w)
  /\ HTTPFlow.intercepted (flow w') = HTTPFlow.intercepted (flow w)
  /\ exists r',
       HTTPFlow.response (flow w') = Some r'
       /\ Response.status_code r' = Response.status_code r
       /\ Response.content r' = Response.content r
       /\ Headers.get_all "x-state" (Response.headers r') = ["response"]
       /\ Headers.get_all "x-request-id" (Response.headers r') =
          match PyDict.get "x-request-id" removed with
          | Some v => [v]
          | None => Headers.get_all "x-request-id" (Response.headers r)
          end
       /\ Headers.without "x-state"
            (Headers.without "x-request-id" (Response.headers r')) =
          Headers.without "x-state"
            (Headers.without "x-request-id" (Response.headers r)).
Proof.
  intros Hs Hr. cbv zeta.
  destruct (response_present_flow env w removed r Hs Hr) as [-> _].
  simpl. split; [reflexivity|]. split; [reflexivity|].
  eexists. split; [reflexivity|]. unfold restored. simpl.
  split; [reflexivity|]. split; [reflexivity|].
  split; [apply get_all_setitem_eq|].
  unfold Headers.setitem. split.
  - rewrite get_all_set_all_other by reflexivity.
    destruct (PyDict.get "x-request-id" removed); [|reflexivity].
    apply get_all_setitem_eq.
  - rewrite without_set_all_other by reflexivity.
    rewrite without_set_all_same.
    destruct (PyDict.get "x-request-id" removed); [|reflexivity].
    now rewrite without_set_all_same.
Qed.

Lemma response_hook_rewrites_only_the_two_enrichment_headers_witness :
  let w :=
    origin_responds Scenario.origin_with_own_id
      (snd (request (Sample.fresh Sample.with_correlation))) in
  exists r',
    HTTPFlow.response (flow (snd (response Sample.timeout_env w))) = Some r'
    /\ Headers.get_all "x-request-id" (Response.headers r') = ["abc123"]
    /\ Response.status_code r' = 404%Z.
Proof.
  cbv zeta.
  destruct (response_hook_rewrites_only_the_two_enrichment_headers
              Sample.timeout_env
              (origin_responds Scenario.origin_with_own_id
                 (snd (request (Sample.fresh Sample.with_correlation))))
              [("x-request-id", "abc123")] Scenario.origin_with_own_id)
    as (_ & _ & r' & Hr' & Hst & _ & _ & Hid & _).
  - reflexivity.
  - reflexivity.
  - exists r'. now split_and!.
Defined.

(** ** What the hooks never do *)

Lemma request_makes_no_call : appends_no is_http_call request.
Proof.
  unfold request, log_info, flow_intercept, thread_start.
  appends.
Qed.

Lemma response_makes_no_call env : appends_no is_http_call (response env).
Proof.
  unfold response, restore_to_client, report, build_payload, decoded_content,
    set_response_header, the_response, thread_start, log_info, log_error.
  appends; apply appends_no_reinstate.
Qed.

(** X8. Neither hook makes an outbound call itself: the request hook and
    the response hook only append effects to the trace, none of which is a
    call to the forward target. The calls are left to the started
    threads. *)
Theorem hooks_make_no_outbound_call (env : Env) (w : World) :
  (exists delta,
     trace (snd (request w)) = trace w ++ delta
     /\ existsb is_http_call delta = false)
  /\ (exists delta,
        trace (snd (response env w)) = trace w ++ delta
        /\ existsb is_http_call delta = false).
Proof.
  split; [apply request_makes_no_call | apply response_makes_no_call].
Qed.

(** X9. A completed exchange leaves no trace in the store: for a
    normal-path request whose flow id has no entry, after the request hook,
    the answer of the origin and the response hook, the store is the store
    from before the request, with or without a correlation header and in
    every environment. *)
Theorem completed_normal_exchange_leaves_the_store_as_it_was
    (env : Env) (w : World) (origin : Response.t) :
  is_connector (flow w) = false ->
  stored_headers w !! HTTPFlow.id (flow w) = None ->
  let answered := origin_responds origin (snd (request w)) in
  stored_headers (snd (response env answered)) = stored_headers w.
Proof.
  intros Hc Hfresh. cbv zeta. rewrite response_store.
  destruct (Headers.contains "x-request-id"
              (Request.headers (HTTPFlow.request (flow w)))) eqn:Hx.
  - pose proof (contains_getitem _ _ Hx) as HR.
    rewrite (request_normal_with_id w _ Hc HR). simpl.
    unfold take_if_present, put. rewrite lookup_insert_eq. simpl.
    rewrite delete_insert_eq. now apply delete_id.
  - rewrite (request_normal_without_id w Hc Hx). simpl.
    unfold take_if_present. now rewrite Hfresh.
Qed.

Lemma completed_normal_exchange_leaves_the_store_as_it_was_witness :
  stored_headers
    (snd (response Sample.timeout_env
            (origin_responds Scenario.origin_with_own_id
               (snd (request (Sample.fresh Sample.with_correlation))))))
  = ∅.
Proof.
  apply (completed_normal_exchange_leaves_the_store_as_it_was
           Sample.timeout_env (Sample.fresh Sample.with_correlation)
           Scenario.origin_with_own_id); reflexivity.
Defined.

(** ** The codec, further *)

Lemma set_fresh {V : Type} k (v : V) d :
  PyDict.contains k d = false -> PyDict.set k v d = d ++ [(k, v)].
Proof.
  unfold PyDict.contains.
  induction d as [|[k0 v0] d IH]; simpl; [reflexivity|].
  destruct (String.eqb k0 k); [discriminate|].
  intros H. now rewrite IH.
Qed.

Lemma fold_set_fresh (l d : PyDict.t string) :
  NoDup (PyDict.keys d ++ map fst l) ->
  fold_left (fun d kv => PyDict.set (fst kv) (snd kv) d) l d = d ++ l.
Proof.
  revert d. induction l as [|[k v] l IH]; intros d Hnd; simpl.
  - now rewrite app_nil_r.
  - assert (Hfresh : PyDict.contains k d = false).
    { destruct (PyDict.contains k d) eqn:E; [|reflexivity].
      apply contains_keys in E. apply NoDup_app in Hnd as (_ & Hdisj & _).
      exfalso. apply (Hdisj k); [now apply list_elem_of_In|].
      simpl. apply list_elem_of_here. }
    rewrite (set_fresh _ _ _ Hfresh). rewrite IH.
    + now rewrite <- app_assoc.
    + unfold PyDict.keys in *. rewrite map_app. simpl.
      now rewrite <- app_assoc.
Qed.

(** X10. The last-win mapping of the codec equals the list of pairs
    exactly when no header name occurs twice; in general it has at most as
    many entries as there are pairs. *)
Theorem serialize_mapping_is_lossless_exactly_without_repeated_names
    (h : Headers.t) :
  (snd (_serialize_headers_preserve h) = fst (_serialize_headers_preserve h)
   <-> NoDup (map fst (Headers.items_multi h)))
  /\ length (snd (_serialize_headers_preserve h))
     <= length (fst (_serialize_headers_preserve h)).
Proof.
  rewrite serialize_unfold. unfold Spec.last_write_wins. simpl. split.
  - split.
    + intros Heq.
      pose proof (NoDup_keys_fold_set (Headers.items_multi h) PyDict.empty
                    NoDup_nil_2) as Hnd.
      rewrite Heq in Hnd. exact Hnd.
    + intros Hnd. now rewrite fold_set_fresh.
  - unfold Headers.items_multi, PyDict.empty.
    assert (H : forall (l d : PyDict.t string),
               length
                 (fold_left (fun d kv => PyDict.set (fst kv) (snd kv) d) l d)
               <= length d + length l).
    { induction l as [|[k v] l IH]; intros d; simpl; [lia|].
      specialize (IH (PyDict.set k v d)).
      assert (length (PyDict.set k v d) <= S (length d)); [|lia].
      clear. induction d as [|[k0 v0] d IHd]; simpl; [lia|].
      destruct (String.eqb k0 k); simpl; lia. }
    apply (H h []).
Qed.

Lemma last_occurrence_app name l1 l2 :
  Spec.last_occurrence name (l1 ++ l2) =
  match Spec.last_occurrence name l2 with
  | Some v => Some v
  | None => Spec.last_occurrence name l1
  end.
Proof.
  induction l1 as [|[k v] l1 IH]; simpl.
  - now destruct (Spec.last_occurrence name l2).
  - rewrite IH. now destruct (Spec.last_occurrence name l2).
Qed.

Lemma serialize_get name h :
  PyDict.get name (snd (_serialize_headers_preserve h)) =
  Spec.last_occurrence name h.
Proof.
  rewrite serialize_unfold. unfold Spec.last_write_wins. simpl.
  rewrite get_fold_set. unfold Headers.items_multi.
  now destruct (Spec.last_occurrence name h).
Qed.

(** X11. Serializing two header lists one after the other: the pairs
    are the pairs of the first followed by the pairs of the second, and the
    mapping gives for a name the value from the second list when the name
    occurs there and the value from the first list otherwise. *)
Theorem serialize_of_appended_headers (h1 h2 : Headers.t) :
  fst (_serialize_headers_preserve (h1 ++ h2)) =
    fst (_serialize_headers_preserve h1)
    ++ fst (_serialize_headers_preserve h2)
  /\ forall name,
       PyDict.get name (snd (_serialize_headers_preserve (h1 ++ h2))) =
       match PyDict.get name (snd (_serialize_headers_preserve h2)) with
       | Some v => Some v
       | None => PyDict.get name (snd (_serialize_headers_preserve h1))
       end.
Proof.
  split.
  - now rewrite !serialize_unfold.
  - intros name. rewrite !serialize_get. apply last_occurrence_app.
Qed.

(** ** What the report says *)

Lemma set_all_nil_absent key h :
  Headers.get_all key h = [] -> Headers.set_all key [] h = h.
Proof.
  unfold Headers.get_all.
  induction h as [|[k v] h IH]; simpl; [reflexivity|].
  destruct (Headers.same_name k key); simpl; [discriminate|].
  intros H. now rewrite IH.
Qed.

Lemma setitem_absent key value h :
  Headers.contains key h = false ->
  Headers.setitem key value h = h ++ [(key, value)].
Proof.
  unfold Headers.contains, Headers.get_all, Headers.setitem.
  induction h as [|[k v] h IH]; simpl; [reflexivity|].
  destruct (Headers.same_name k key); simpl; [discriminate|].
  intros H. now rewrite IH.
Qed.

Lemma setitem_same_value key value h :
  Headers.get_all key h = [value] -> Headers.setitem key value h = h.
Proof.
  unfold Headers.setitem.
  induction h as [|[k v] h IH]; simpl; [discriminate|].
  unfold Headers.get_all in *. simpl.
  destruct (Headers.same_name k key); simpl.
  - intros [= -> Hrest]. f_equal. now apply set_all_nil_absent.
  - intros H. now rewrite IH.
Qed.

Lemma get_headers_dict_json key d :
  PyDict.get key (map (fun kv => (fst kv, JStr (snd kv))) d) =
  option_map JStr (PyDict.get key d).
Proof.
  induction d as [|[k v] d IH]; simpl; [reflexivity|].
  now destruct (String.eqb k key).
Qed.

(** The payload the response hook schedules when nothing fails. *)
Lemma response_schedules env w removed r req_body resp_body :
  stored_headers w !! HTTPFlow.id (flow w) = Some removed ->
  HTTPFlow.response (flow w) = Some r ->
  (forall site, fault env site = None) ->
  Request.content (HTTPFlow.request (flow w)) = Returned (Some req_body) ->
  Response.content r = Returned (Some resp_body) ->
  let fid := HTTPFlow.id (flow w) in
  let rq := HTTPFlow.request (flow w) in
  let req_h := reinstate_all removed (Request.headers rq) in
  let resp_h := reinstate_all removed (Response.headers (restored removed r)) in
  trace (snd (response env w)) =
  trace w
  ++ [ThreadStart
        (Thread_send_enriched_async
           (JDict
              [("flow_id", JStr fid);
               ("request",
                JDict
                  [("method", JStr (Request.method rq));
                   ("url", JStr (Request.url rq));
                   ("headers_list", headers_list_json req_h);
                   ("headers",
                    headers_dict_json
                      (snd (_serialize_headers_preserve req_h)));
                   ("body", JStr (Utf8.decode_replace req_body))]);
               ("response",
                JDict
                  [("status_code", JInt (Response.status_code r));
                   ("headers_list", headers_list_json resp_h);
                   ("headers",
                    headers_dict_json
                      (snd (_serialize_headers_preserve resp_h)));
                   ("body", JStr (Utf8.decode_replace resp_body))])])
           fid);
      LogInfo (MsgScheduled fid)].
Proof.
  intros Hs Hr Hfault Hreq Hresp. cbv zeta.
  rewrite (response_present env w removed r Hs Hr).
  erewrite report_spec by reflexivity.
  unfold construction_failure. rewrite (first_fault_none env _ Hfault).
  simpl. rewrite Hreq, Hresp, Hfault. simpl.
  now rewrite !serialize_unfold.
Qed.

(** X12. For a normal-path request with correlation value [R] whose
    bodies can be read, when no library call fails and after any hooks of
    other flows: the response hook schedules one payload, in which
    [flow_id] is the id of the flow, the request's [headers_list] is the
    request's fields without those named [x-request-id], followed by the
    one pair [x-request-id, R], the request's [headers] map [x-request-id]
    to [R], the response's [headers_list] is the header list of the
    response delivered to the client, and [status_code] is the origin's. *)
Theorem report_lists_the_request_with_the_correlation_header_last
    (env : Env) (w : World) (R : string) (others : list activity)
    (origin : Response.t) (req_body resp_body : string) :
  is_connector (flow w) = false ->
  Headers.getitem "x-request-id"
    (Request.headers (HTTPFlow.request (flow w))) = Some R ->
  Forall (foreign (HTTPFlow.id (flow w))) others ->
  (forall site, fault env site = None) ->
  Request.content (HTTPFlow.request (flow w)) = Returned (Some req_body) ->
  Response.content origin = Returned (Some resp_body) ->
  let fid := HTTPFlow.id (flow w) in
  let h := Request.headers (HTTPFlow.request (flow w)) in
  let answered :=
    origin_responds origin (run env others (snd (request w))) in
  let delivered := snd (response env answered) in
  exists payload to_client,
    trace delivered =
      trace answered
      ++ [ThreadStart (Thread_send_enriched_async payload fid);
          LogInfo (MsgScheduled fid)]
    /\ HTTPFlow.response (flow delivered) = Some to_client
    /\ json_path ["flow_id"] payload = Some (JStr fid)
    /\ json_path ["request"; "headers_list"] payload =
       Some
         (headers_list_json
            (Headers.without "x-request-id" h ++ [("x-request-id", R)]))
    /\ json_path ["request"; "headers"; "x-request-id"] payload
       = Some (JStr R)
    /\ json_path ["response"; "headers_list"] payload =
       Some (headers_list_json (Response.headers to_client))
    /\ json_path ["response"; "status_code"] payload =
       Some (JInt (Response.status_code origin)).
Proof.
  intros Hc HR Hothers Hfault Hreq Hresp. cbv zeta.
  rewrite (request_normal_with_id w R Hc HR). simpl snd.
  match goal with |- context [run env others ?x] => set (w1 := x) end.
  set (answered := origin_responds origin (run env others w1)).
  assert (Hflow : flow answered =
                  HTTPFlow.with_response (Some origin) (flow w1)).
  { subst answered. unfold origin_responds. simpl. now rewrite run_flow. }
  assert (Hentry : stored_headers answered !! HTTPFlow.id (flow answered)
                   = Some (correlation_entry R)).
  { rewrite Hflow. subst answered. unfold origin_responds. simpl.
    rewrite run_store_foreign by exact Hothers.
    subst w1. simpl. unfold put. apply lookup_insert_eq. }
  assert (Hr : HTTPFlow.response (flow answered) = Some origin)
    by now rewrite Hflow.
  assert (Hreq' : Request.content (HTTPFlow.request (flow answered))
                  = Returned (Some req_body)) by now rewrite Hflow.
  pose proof (response_schedules env answered _ origin req_body resp_body
                Hentry Hr Hfault Hreq' Hresp) as Htrace.
  cbv zeta in Htrace.
  destruct (response_present_flow env answered _ _ Hentry Hr) as [Hdel _].
  rewrite Hflow in Htrace, Hdel. subst w1.
  cbn [flow HTTPFlow.request HTTPFlow.with_response HTTPFlow.with_request
       HTTPFlow.id Request.headers Request.with_headers Request.method
       Request.url] in Htrace, Hdel.
  assert (Hreq_h :
            reinstate_all (correlation_entry R)
              (Headers.without "x-request-id"
                 (Request.headers (HTTPFlow.request (flow w)))) =
            Headers.without "x-request-id"
              (Request.headers (HTTPFlow.request (flow w)))
            ++ [("x-request-id", R)]).
  { unfold reinstate_all, correlation_entry. simpl.
    apply setitem_absent, contains_without. }
  assert (Hresp_h :
            reinstate_all (correlation_entry R)
              (Response.headers (restored (correlation_entry R) origin)) =
            Response.headers (restored (correlation_entry R) origin)).
  { unfold reinstate_all, correlation_entry, restored. simpl.
    apply setitem_same_value. unfold Headers.setitem.
    rewrite get_all_set_all_other by reflexivity.
    apply get_all_setitem_eq. }
  rewrite Hreq_h, Hresp_h in Htrace.
  eexists _, _. split; [exact Htrace|].
  split; [rewrite Hdel; reflexivity|].
  split; [reflexivity|]. split; [reflexivity|].
  split; [|now split].
  cbn [json_path json_get PyDict.get String.eqb Ascii.eqb Bool.eqb].
  unfold headers_dict_json, PyDict.items.
  cbn [json_path json_get].
  rewrite get_headers_dict_json, serialize_get.
  rewrite last_occurrence_split by (simpl; tauto). reflexivity.
Qed.

Lemma report_lists_the_request_with_the_correlation_header_last_witness :
  let env := Sample.timeout_env in
  let answered :=
    origin_responds Scenario.origin_with_own_id
      (run env Sample.other_traffic
         (snd (request (Sample.fresh Scenario.two_correlation_fields)))) in
  exists payload,
    In (ThreadStart (Thread_send_enriched_async payload "f7"))
       (trace (snd (response env answered)))
    /\ json_path ["request"; "headers_list"] payload =
       Some
         (headers_list_json
            [("accept", "text/html"); ("host", "origin");
             ("x-request-id", "abc, def")])
    /\ json_path ["request"; "headers"; "x-request-id"] payload
       = Some (JStr "abc, def").
Proof.
  cbv zeta.
  destruct (report_lists_the_request_with_the_correlation_header_last
              Sample.timeout_env
              (Sample.fresh Scenario.two_correlation_fields)
              "abc, def" Sample.other_traffic Scenario.origin_with_own_id
              "ping" "missing")
    as (payload & to_client & Htrace & _ & _ & Hlist & Hid & _).
  - reflexivity.
  - reflexivity.
  - repeat constructor; simpl; discriminate.
  - reflexivity.
  - reflexivity.
  - reflexivity.
  - exists payload. split_and!.
    + rewrite Htrace. apply in_or_app. right. now left.
    + exact Hlist.
    + exact Hid.
Defined.

(** X13. When the response hook schedules a payload, its two [body]
    entries are the bodies decoded with replacement; a body that is
    well-formed UTF-8 is reported byte for byte. *)
Theorem report_bodies_are_decoded_and_valid_text_is_kept
    (env : Env) (w : World) (removed : PyDict.t string) (r : Response.t)
    (req_body resp_body : string) :
  stored_headers w !! HTTPFlow.id (flow w) = Some removed ->
  HTTPFlow.response (flow w) = Some r ->
  (forall site, fault env site = None) ->
  Request.content (HTTPFlow.request (flow w)) = Returned (Some req_body) ->
  Response.content r = Returned (Some resp_body) ->
  exists payload,
    trace (snd (response env w)) =
      trace w
      ++ [ThreadStart
            (Thread_send_enriched_async payload (HTTPFlow.id (flow w)));
          LogInfo (MsgScheduled (HTTPFlow.id (flow w)))]
    /\ json_path ["request"; "body"] payload =
       Some (JStr (Utf8.decode_replace req_body))
    /\ json_path ["response"; "body"] payload =
       Some (JStr (Utf8.decode_replace resp_body))
    /\ (Utf8.well_formed req_body = true ->
        json_path ["request"; "body"] payload = Some (JStr req_body))
    /\ (Utf8.well_formed resp_body = true ->
        json_path ["response"; "body"] payload = Some (JStr resp_body)).
Proof.
  intros Hs Hr Hfault Hreq Hresp.
  pose proof (response_schedules env w removed r req_body resp_body
                Hs Hr Hfault Hreq Hresp) as Htrace.
  cbv zeta in Htrace. eexists. split; [exact Htrace|].
  split; [reflexivity|]. split; [reflexivity|].
  split; intros Hwf; simpl; now rewrite decode_replace_fixes.
Qed.

Lemma report_bodies_are_decoded_and_valid_text_is_kept_witness :
  exists payload,
    In (ThreadStart (Thread_send_enriched_async payload "f3"))
       (trace (snd (response Sample.timeout_env Sample.awaiting_enrichment)))
    /\ json_path ["request"; "body"] payload = Some (JStr "ping")
    /\ json_path ["response"; "body"] payload = Some (JStr "ok").
Proof.
  destruct (report_bodies_are_decoded_and_valid_text_is_kept
              Sample.timeout_env Sample.awaiting_enrichment
              [("x-request-id", "abc123")]
              (Sample.ok_response [("server", "origin")]) "ping" "ok")
    as (payload & Htrace & _ & _ & H1 & H2).
  - reflexivity.
  - reflexivity.
  - reflexivity.
  - reflexivity.
  - reflexivity.
  - exists payload. split_and!.
    + rewrite Htrace. now left.
    + apply H1. reflexivity.
    + apply H2. reflexivity.
Defined.

(** ** The size of the store *)

Lemma perform_size env a w :
  size (stored_headers (perform env a w))
  <= size (stored_headers w)
     + match a with RequestHook _ => 1 | _ => 0 end
  /\ size (stored_headers w)
     <= size (stored_headers (perform env a w))
        + match a with ResponseHook _ => 1 | _ => 0 end.
Proof.
  destruct a as [g|g|g headers|payload fid']; simpl.
  - set (wg := {| flow := g; stored_headers := stored_headers w;
                  trace := trace w |}).
    destruct (request_store wg) as [->|[v [_ ->]]]; simpl; [lia|].
    unfold put. rewrite map_size_insert.
    destruct (stored_headers w !! HTTPFlow.id g); simpl; lia.
  - rewrite response_store. simpl. unfold take_if_present.
    destruct (stored_headers w !! HTTPFlow.id g) eqn:E; simpl; [|lia].
    rewrite map_size_delete, E. simpl. lia.
  - rewrite keeps_store_handle_connector_service. simpl. lia.
  - rewrite keeps_store_send_enriched_async. simpl. lia.
Qed.

(** X14. Over any run the store grows by at most one entry per request
    hook and shrinks by at most one entry per response hook; threads never
    change its size. *)
Theorem store_size_is_bounded_by_the_hooks_run
    (env : Env) (acts : list activity) (w : World) :
  size (stored_headers (run env acts w))
  <= size (stored_headers w) + request_hooks acts
  /\ size (stored_headers w)
     <= size (stored_headers (run env acts w)) + response_hooks acts.
Proof.
  unfold run. revert w.
  induction acts as [|a acts IH]; intros w; simpl; [lia|].
  destruct (IH (perform env a w)) as [IH1 IH2].
  destruct (perform_size env a w) as [H1 H2].
  destruct a; simpl in *; lia.
Qed.

(** ** What the snapshot keeps *)

Lemma first_spelling_same key k h :
  Headers.first_spelling key h = Some k ->
  Headers.same_name k key = true /\ Headers.first_spelling k h = Some k.
Proof.
  induction h as [|[k0 v0] h IH]; simpl; [discriminate|].
  destruct (Headers.same_name k0 key) eqn:E.
  - intros [= <-]. split; [exact E|]. now rewrite same_name_refl.
  - intros H. destruct (IH H) as [Hsame Hfirst]. split; [exact Hsame|].
    assert (Headers.same_name k0 k = false) as ->; [|exact Hfirst].
    unfold Headers.same_name in *. apply String.eqb_eq in Hsame.
    now rewrite Hsame.
Qed.

Lemma get_all_same_name k key h :
  Headers.same_name k key = true ->
  Headers.get_all k h = Headers.get_all key h.
Proof.
  intros Hsame. unfold Headers.get_all. f_equal.
  apply filter_ext. intros [k0 v0]. simpl.
  unfold Headers.same_name in *. apply String.eqb_eq in Hsame.
  now rewrite Hsame.
Qed.

Lemma contains_first_spelling key h :
  Headers.contains key h = true ->
  exists k, Headers.first_spelling key h = Some k.
Proof.
  unfold Headers.contains, Headers.get_all.
  induction h as [|[k0 v0] h IH]; simpl; [discriminate|].
  destruct (Headers.same_name k0 key); simpl; [eauto | exact IH].
Qed.

(** X15. For a connector request, every header name of the request has
    exactly one key in the snapshot handed to the worker: the spelling of
    its first field. That key holds the values of all fields of the name,
    in order, joined by [", "], so no header value is lost. *)
Theorem connector_snapshot_keeps_every_value_under_the_first_spelling
    (w : World) (key : string) :
  is_connector (flow w) = true ->
  Headers.contains key (Request.headers (HTTPFlow.request (flow w))) = true ->
  let h := Request.headers (HTTPFlow.request (flow w)) in
  exists before headers k,
    trace (snd (request w)) =
      before
      ++ [ThreadStart
            (Thread_handle_connector_service (HTTPFlow.id (flow w)) headers)]
    /\ Headers.first_spelling key h = Some k
    /\ Headers.same_name k key = true
    /\ PyDict.get k headers = Some (PyStr.join ", " (Headers.get_all key h))
    /\ (forall k', Headers.same_name k' key = true -> k' <> k ->
          PyDict.get k' headers = None).
Proof.
  intros Hc Hkey. cbv zeta. rewrite (request_connector w Hc). simpl.
  destruct (contains_first_spelling _ _ Hkey) as [k Hk].
  destruct (first_spelling_same _ _ _ Hk) as [Hsame Hfirst].
  exists (trace w
          ++ LogInfo (MsgIntercepting (HTTPFlow.id (flow w)))
             :: (if HTTPFlow.intercepted (flow w) then []
                 else [Intercept (HTTPFlow.id (flow w))])).
  eexists _, k. split; [now rewrite <- app_assoc|].
  split; [exact Hk|]. split; [exact Hsame|]. split.
  - rewrite to_dict_get, Hfirst, String.eqb_refl.
    unfold Headers.getitem, Headers.contains in *.
    rewrite (get_all_same_name k key _ Hsame).
    now destruct (Headers.get_all key
                    (Request.headers (HTTPFlow.request (flow w)))).
  - intros k' Hsame' Hne. rewrite to_dict_get.
    assert (Hk' : Headers.first_spelling k' (Request.headers
                    (HTTPFlow.request (flow w))) = Some k).
    { clear - Hk Hsame'. revert Hk.
      induction (Request.headers (HTTPFlow.request (flow w)))
        as [|[k0 v0] h IH]; simpl; [discriminate|].
      assert (Headers.same_name k0 k' = Headers.same_name k0 key) as ->.
      { unfold Headers.same_name in *. apply String.eqb_eq in Hsame'.
        now rewrite Hsame'. }
      destruct (Headers.same_name k0 key); [tauto | exact IH]. }
    rewrite Hk'. destruct (String.eqb_spec k k'); [congruence | reflexivity].
Qed.

Lemma connector_snapshot_keeps_every_value_under_the_first_spelling_witness :
  exists before headers,
    trace (snd (request (Sample.fresh Sample.connector_two_accepts))) =
      before ++ [ThreadStart (Thread_handle_connector_service "f1" headers)]
    /\ PyDict.get "accept" headers = Some "text/html, application/json".
Proof.
  destruct (connector_snapshot_keeps_every_value_under_the_first_spelling
              (Sample.fresh Sample.connector_two_accepts) "ACCEPT")
    as (before & headers & k & Htrace & Hk & _ & Hget & _).
  - reflexivity.
  - reflexivity.
  - injection Hk as <-. exists before, headers. split; [exact Htrace|].
    exact Hget.
Defined.
